(** * TaoStats cache service: a shallow embedding of [src/cache_service.py]

    The Python module defines [CacheEntry] and two copies of the caching
    and rate-limiting service: the coroutine based [TaoStatsCacheService]
    and the blocking [SyncTaoStatsCacheService].  Both have every helper
    ([_initialize_cache], [_persist_cache], [_cleanup_expired_timestamps],
    [_has_reached_rate_limit], [_record_request], [_get_wait_time_ms],
    [invalidate], [invalidate_by_prefix], [clear]) word for word in common
    and differ only in [with_cache].

    Modelling choices.
    - Python values handled by the cache are JSON values ([json]); Python's
      [None] is [JNull].  Floats are not modelled.
    - The service object, the snapshot file and the wall clock form the
      [world].  [time.time()] is an oracle: every call of
      [int(time.time() * 1000)] consumes the next reading of [clock].
    - Code runs in a state-and-exception monad; state changes made before a
      [raise] persist, as in Python.  Exceptions are those caught by
      [except Exception].
    - The [fetch_fn] of the blocking service is any program of that monad:
      it may read the clock, fail, and call back into the service.
    - The coroutine service is modelled as the event loop sees it: a call
      runs from one suspension point to the next, the only suspension point
      being [await fetch_fn()], and the outcome of the fetch is supplied
      when the task is resumed.
    - [json.dump] followed by [json.load] is the identity on [json], so the
      snapshot file holds the document itself ([None]: no file, or a file
      that is not valid JSON).  Directory creation and logging have no
      effect on the modelled state and are omitted; file I/O on an
      existing path is assumed to succeed. *)

From stdpp Require Import gmap strings list fin_maps pretty.
From Stdlib Require Import ZArith Lia.

Local Open Scope Z_scope.
Local Open Scope string_scope.

(** ** Python values *)

Local Unset Elimination Schemes.
Inductive json : Type :=
  | JNull
  | JBool (b : bool)
  | JInt (n : Z)
  | JStr (s : string)
  | JList (items : list json)
  | JObj (fields : list (string * json)).
Local Set Elimination Schemes.

(** Exceptions: the class name and the message. *)
Inductive exn : Type :=
  | PyExc (cls : string) (msg : string).

(** [Exception(message)] *)
Definition Exception (message : string) : exn := PyExc "Exception" message.

(** [d[k]] / [k in d] on a dict (keys of a dict are unique). *)
Fixpoint dict_get (k : string) (fields : list (string * json)) : option json :=
  match fields with
  | [] => None
  | (k', v) :: rest => if String.eqb k k' then Some v else dict_get k rest
  end.

(** An operand of integer arithmetic: [int], or [bool] (a subclass of
    [int]); anything else makes [-] and [>] raise [TypeError]. *)
Definition as_int (v : json) : option Z :=
  match v with
  | JInt n => Some n
  | JBool b => Some (Z.b2z b)
  | _ => None
  end.

(** ** The world *)

(** class CacheEntry *)
Record CacheEntry : Type := mkCacheEntry {
  data : json;
  timestamp : Z;
  expires_at : Z
}.

(** The attributes of a service object set in [__init__] ([cache_path] is
    the location of the one snapshot file, see [disk]). *)
Record service (P : Type) : Type := Service {
  cache : gmap string CacheEntry;
  pending_requests : gmap string P;
  request_timestamps : list Z;
  minute_request_limit : Z;
  persistent_cache_enabled : bool
}.
Arguments Service {P}.
Arguments cache {P}.
Arguments pending_requests {P}.
Arguments request_timestamps {P}.
Arguments minute_request_limit {P}.
Arguments persistent_cache_enabled {P}.

Record world (P : Type) : Type := World {
  self : service P;
  disk : option json;
  clock : nat -> Z;
  ticks : nat
}.
Arguments World {P}.
Arguments self {P}.
Arguments disk {P}.
Arguments clock {P}.
Arguments ticks {P}.

(** [self.window_size_ms = 60 * 1000] *)
Definition window_size_ms : Z := 60 * 1000.

(** ** The monad *)

Definition result (A : Type) : Type := (A + exn)%type.

(** A program over a state [S]: it ends with a value or an exception, and
    a new state. *)
Definition Prog (S A : Type) : Type := S -> result A * S.

Definition ret {S A} (a : A) : Prog S A := fun w => (inl a, w).

Definition raise {S A} (e : exn) : Prog S A := fun w => (inr e, w).

Definition bind {S A B} (m : Prog S A) (k : A -> Prog S B) : Prog S B :=
  fun w =>
    match m w with
    | (inl a, w') => k a w'
    | (inr e, w') => (inr e, w')
    end.

Notation "x <- c ;; k" := (bind c (fun x => k))
  (at level 100, c at next level, right associativity).
Notation "c ;;; k" := (bind c (fun _ => k))
  (at level 100, right associativity).

(** [try: m except Exception as error: h error] *)
Definition try_except {S A} (m : Prog S A) (h : exn -> Prog S A) : Prog S A :=
  fun w =>
    match m w with
    | (inl a, w') => (inl a, w')
    | (inr e, w') => h e w'
    end.

(** [try: m finally: f].  The [finally] block runs on every exit; when it
    raises, its exception replaces the outcome of [m]. *)
Definition try_finally {S A} (m : Prog S A) (f : Prog S unit) : Prog S A :=
  fun w =>
    match m w with
    | (r, w') =>
        match f w' with
        | (inl _, w'') => (r, w'')
        | (inr e, w'') => (inr e, w'')
        end
    end.

(** Programs of a service whose pending table holds values of type [P]. *)
Abbreviation M P := (Prog (world P)).

Section Service.
Context {P : Type}.

Definition gets {A} (f : service P -> A) : M P A :=
  fun w => (inl (f (self w)), w).

Definition modify (f : service P -> service P) : M P unit :=
  fun w => (inl tt, World (f (self w)) (disk w) (clock w) (ticks w)).

Definition set_cache (c : gmap string CacheEntry) (s : service P) : service P :=
  Service c (pending_requests s) (request_timestamps s)
          (minute_request_limit s) (persistent_cache_enabled s).

Definition set_pending_requests (p : gmap string P) (s : service P) : service P :=
  Service (cache s) p (request_timestamps s)
          (minute_request_limit s) (persistent_cache_enabled s).

Definition set_request_timestamps (l : list Z) (s : service P) : service P :=
  Service (cache s) (pending_requests s) l
          (minute_request_limit s) (persistent_cache_enabled s).

(** [int(time.time() * 1000)] *)
Definition time_ms : M P Z :=
  fun w => (inl (clock w (ticks w)), World (self w) (disk w) (clock w) (S (ticks w))).

Definition read_file : M P (option json) :=
  fun w => (inl (disk w), w).

Definition write_file (doc : json) : M P unit :=
  fun w => (inl tt, World (self w) (Some doc) (clock w) (ticks w)).

(** *** class CacheEntry *)

(** [CacheEntry.__init__(data, ttl)] *)
Definition CacheEntry_init (d : json) (ttl : Z) : M P CacheEntry :=
  now <- time_ms ;;
  ret (mkCacheEntry d now (now + ttl)).

(** [CacheEntry.is_expired] *)
Definition is_expired (e : CacheEntry) : M P bool :=
  now <- time_ms ;;
  ret (bool_decide (now > expires_at e)).

(** [CacheEntry.to_dict] *)
Definition to_dict (e : CacheEntry) : json :=
  JObj [("data", data e);
        ("timestamp", JInt (timestamp e));
        ("expiresAt", JInt (expires_at e))].

(** *** The call ledger *)

(** The comprehension [[ts for ts in l if now - ts < window_size_ms]]. *)
Definition in_window (now : Z) (l : list Z) : list Z :=
  filter (fun ts => now - ts < window_size_ms) l.

(** [_cleanup_expired_timestamps] *)
Definition _cleanup_expired_timestamps : M P unit :=
  now <- time_ms ;;
  ts <- gets request_timestamps ;;
  modify (set_request_timestamps (in_window now ts)).

(** [_has_reached_rate_limit] *)
Definition _has_reached_rate_limit : M P bool :=
  _cleanup_expired_timestamps ;;;
  ts <- gets request_timestamps ;;
  limit <- gets minute_request_limit ;;
  ret (bool_decide (Z.of_nat (length ts) >= limit)).

(** [_record_request] *)
Definition _record_request : M P unit :=
  now <- time_ms ;;
  ts <- gets request_timestamps ;;
  modify (set_request_timestamps (ts ++ [now])).

(** [sorted(l)] on integers, as an insertion sort. *)
Fixpoint insert_sorted (x : Z) (l : list Z) : list Z :=
  match l with
  | [] => [x]
  | y :: l' => if bool_decide (x <= y) then x :: y :: l' else y :: insert_sorted x l'
  end.

Definition sorted (l : list Z) : list Z := foldr insert_sorted [] l.

(** [_get_wait_time_ms] *)
Definition _get_wait_time_ms : M P Z :=
  ts <- gets request_timestamps ;;
  match ts with
  | [] => ret 0
  | _ :: _ =>
      now <- time_ms ;;
      match sorted ts with
      | [] => raise (PyExc "IndexError" "list index out of range")
      | oldest_request :: _ =>
          let time_until_window_frees := (oldest_request + window_size_ms) - now in
          ret (Z.max 0 time_until_window_frees)
      end
  end.

(** *** The snapshot file *)

(** [_persist_cache].  Nothing in the [try] block can raise in the model;
    the handler is kept as the code has it. *)
Definition _persist_cache : M P unit :=
  enabled <- gets persistent_cache_enabled ;;
  if negb enabled then ret tt
  else
    try_except
      (now <- time_ms ;;
       ts <- gets request_timestamps ;;
       c <- gets cache ;;
       let cache_data :=
         JObj [("timestamp", JInt now);
               ("requestTimestamps", JList (JInt <$> ts));
               ("entries",
                JList ((fun kv => JList [JStr kv.1; to_dict kv.2]) <$> map_to_list c))] in
       write_file cache_data)
      (fun _ => ret tt).

(** [CacheEntry.from_dict].  The constructor runs first (and reads the
    clock), then the two time stamps are overwritten.  Python stores
    [data["timestamp"]] and [data["expiresAt"]] unchecked and fails at the
    first comparison when they are not numbers; the entries of the model
    hold integers, so such a document is rejected here. *)
Definition from_dict (value : json) : M P CacheEntry :=
  match value with
  | JObj d =>
      match dict_get "data" d with
      | None => raise (PyExc "KeyError" "data")
      | Some dat =>
          entry <- CacheEntry_init dat 0 ;;
          match dict_get "timestamp" d with
          | None => raise (PyExc "KeyError" "timestamp")
          | Some t =>
              match dict_get "expiresAt" d with
              | None => raise (PyExc "KeyError" "expiresAt")
              | Some x =>
                  match as_int t, as_int x with
                  | Some t', Some x' => ret (mkCacheEntry (data entry) t' x')
                  | _, _ => raise (PyExc "TypeError" "unsupported operand type")
                  end
              end
          end
      end
  | _ => raise (PyExc "TypeError" "indices must be integers")
  end.

(** The loop [for entry in cache_data['entries']].  The keys of the model
    are strings; a pair whose first component is not a string is
    rejected at the assignment [self.cache[key] = cache_entry]. *)
Fixpoint restore_entries (entries : list json) : M P unit :=
  match entries with
  | [] => ret tt
  | entry :: rest =>
      match entry with
      | JList [key; value] =>
          cache_entry <- from_dict value ;;
          expired <- is_expired cache_entry ;;
          if negb expired then
            match key with
            | JStr k => modify (fun s => set_cache (<[k := cache_entry]> (cache s)) s)
            | _ => raise (PyExc "TypeError" "unhashable type")
            end
          else ret tt
      | _ => ret tt
      end ;;;
      restore_entries rest
  end.

(** [_initialize_cache].  [None] on disk stands for [FileNotFoundError]
    and [json.JSONDecodeError]; a document that is not an object loads
    nothing (the membership tests are false or raise, and every
    exception ends in the outer handler). *)
Definition _initialize_cache : M P unit :=
  enabled <- gets persistent_cache_enabled ;;
  if negb enabled then ret tt
  else
    try_except
      (file <- read_file ;;
       match file with
       | Some (JObj cache_data) =>
           match dict_get "requestTimestamps" cache_data with
           | Some (JList l) =>
               now <- time_ms ;;
               match mapM as_int l with
               | Some ts => modify (set_request_timestamps (in_window now ts))
               | None => raise (PyExc "TypeError" "unsupported operand type")
               end
           | _ => ret tt
           end ;;;
           match dict_get "entries" cache_data with
           | Some (JList entries) => restore_entries entries
           | _ => ret tt
           end
       | _ => ret tt
       end)
      (fun _ => ret tt).

(** [__init__]: the attributes are set from the options, then the
    snapshot is loaded. *)
Definition init (limit : Z) (enabled : bool) : M P unit :=
  modify (fun _ => Service ∅ ∅ [] limit enabled) ;;;
  _initialize_cache.

(** *** Invalidation *)

(** [del self.cache[key]] *)
Definition del_cache (key : string) : M P unit :=
  c <- gets cache ;;
  match c !! key with
  | Some _ => modify (set_cache (delete key c))
  | None => raise (PyExc "KeyError" key)
  end.

(** [invalidate].  The function has no [return] statement: the value of
    a call is [None]. *)
Definition invalidate (key : string) : M P json :=
  c <- gets cache ;;
  (if bool_decide (is_Some (c !! key)) then del_cache key else ret tt) ;;;
  ret JNull.

(** [key.startswith(prefix)] *)
Definition startswith (key prefix : string) : bool := String.prefix prefix key.

(** The loop of [invalidate_by_prefix] over [list(self.cache.keys())]. *)
Fixpoint invalidate_keys (prefix : string) (keys : list string) (count : Z) : M P Z :=
  match keys with
  | [] => ret count
  | key :: rest =>
      if startswith key prefix then
        del_cache key ;;;
        invalidate_keys prefix rest (count + 1)
      else invalidate_keys prefix rest count
  end.

(** [invalidate_by_prefix] *)
Definition invalidate_by_prefix (prefix : string) : M P Z :=
  c <- gets cache ;;
  invalidate_keys prefix (map_to_list c).*1 0.

(** [clear] *)
Definition clear : M P unit :=
  modify (set_cache ∅).

(** [get_cache_stats].  The dict it returns is a JSON object.  The first
    assignment to [window_reset_time] is overwritten on both branches. *)
Definition get_cache_stats : M P json :=
  _cleanup_expired_timestamps ;;;
  ts <- gets request_timestamps ;;
  limit <- gets minute_request_limit ;;
  window_reset_time <-
    (if negb (bool_decide (ts = [])) && bool_decide (Z.of_nat (length ts) >= limit) then
       wait_time <- _get_wait_time_ms ;;
       ret (pretty (wait_time `div` 1000) +:+ " seconds")
     else ret "Available now") ;;
  c <- gets cache ;;
  ret (JObj [("size", JInt (Z.of_nat (size c)));
             ("current_minute_requests", JInt (Z.of_nat (length ts)));
             ("api_calls_remaining", JInt (Z.max 0 (limit - Z.of_nat (length ts))));
             ("window_reset_time", JStr window_reset_time)]).

(** *** Options of [with_cache] *)

Record Options : Type := mkOptions {
  ttl : Z;
  force_refresh : bool;
  fallback_to_cache : bool;
  critical : bool;
  fail_silently : bool
}.

(** The defaults of [options.get]. *)
Definition default_options : Options :=
  mkOptions 3600000 false true false false.

(** The f-string of the rate-limit error; [//] is floor division. *)
Definition rate_limit_message (n : nat) (limit wait_time : Z) : string :=
  "TaoStats API rate limit reached (" +:+ pretty (Z.of_nat n) +:+ "/" +:+
  pretty limit +:+ " per minute), need to wait " +:+
  pretty (wait_time `div` 1000) +:+ " seconds".

(** Lines 505-516: the call is denied and there is no entry to fall back
    to. *)
Definition rate_limit_denial (options : Options) : M P json :=
  wait_time <- _get_wait_time_ms ;;
  ts <- gets request_timestamps ;;
  limit <- gets minute_request_limit ;;
  let message := rate_limit_message (length ts) limit wait_time in
  if fail_silently options then ret JNull else raise (Exception message).

(** The body of [if self._has_reached_rate_limit() and not critical:],
    the same in both services.  The wait time computed in the first branch
    goes to the log only. *)
Definition rate_limited (cached_entry : option CacheEntry) (options : Options) : M P json :=
  match cached_entry with
  | Some e =>
      if fallback_to_cache options then
        _get_wait_time_ms ;;;
        ret (data e)
      else rate_limit_denial options
  | None => rate_limit_denial options
  end.

End Service.

(** ** class SyncTaoStatsCacheService *)

Module Sync.

(** [self.pending_requests: Dict[str, bool]] *)
Abbreviation world := (world bool).
Abbreviation M := (M bool).

(** The [finally] block of [with_cache]. *)
Definition clean_up_pending (key : string) : M unit :=
  pending <- gets pending_requests ;;
  if bool_decide (is_Some (pending !! key)) then
    modify (fun s => set_pending_requests (delete key (pending_requests s)) s)
  else ret tt.

(** Lines 518-549: mark the key as pending and fetch. *)
Definition fetch (key : string) (fetch_fn : M json) (options : Options)
    (cached_entry : option CacheEntry) : M json :=
  modify (fun s => set_pending_requests (<[key := true]> (pending_requests s)) s) ;;;
  try_finally
    (try_except
       (_record_request ;;;
        result <- fetch_fn ;;
        entry <- CacheEntry_init result (ttl options) ;;
        modify (fun s => set_cache (<[key := entry]> (cache s)) s) ;;;
        _persist_cache ;;;
        ret result)
       (fun error =>
          match cached_entry with
          | Some e => if fallback_to_cache options then ret (data e) else raise error
          | None => raise error
          end))
    (clean_up_pending key).

(** Lines 494-549: the admission check, then the fetch. *)
Definition admission_then_fetch (key : string) (fetch_fn : M json) (options : Options)
    (cached_entry : option CacheEntry) : M json :=
  limited <- _has_reached_rate_limit ;;
  if limited && negb (critical options) then rate_limited cached_entry options
  else fetch key fetch_fn options cached_entry.

(** [with_cache].  A [CacheEntry] object is always truthy, so
    [if cached_entry] tests for [None]; [and] short-circuits, so
    [is_expired] reads the clock only for an existing entry without
    [force_refresh]. *)
Definition with_cache (key : string) (fetch_fn : M json) (options : Options) : M json :=
  try_except
    (pending <- gets pending_requests ;;
     if bool_decide (is_Some (pending !! key)) && negb (force_refresh options) then
       ret JNull
     else
       cached_entry <- gets (fun s => cache s !! key) ;;
       match cached_entry with
       | Some e =>
           if negb (force_refresh options) then
             expired <- is_expired e ;;
             if negb expired then ret (data e)
             else admission_then_fetch key fetch_fn options cached_entry
           else admission_then_fetch key fetch_fn options cached_entry
       | None => admission_then_fetch key fetch_fn options cached_entry
       end)
    (fun error => raise error).

End Sync.

(** ** class TaoStatsCacheService (coroutines) *)

Module Async.

(** The states of a coroutine object ([inspect.getcoroutinestate]). *)
Inductive coro_state : Type :=
  | CORO_CREATED
  | CORO_RUNNING
  | CORO_SUSPENDED
  | CORO_CLOSED.

(** The coroutine object returned by a call [execute_fetch()]: the
    variables of [with_cache] its body closes over, and its state. *)
Record coroutine : Type := mkCoroutine {
  co_key : string;
  co_options : Options;
  co_cached_entry : option CacheEntry;
  co_state : coro_state
}.

(** The service, the coroutine objects (a heap: [pending_requests] holds
    references into it), and the number of calls of [fetch_fn] made so far.
    The event loop runs one task at a time, from one suspension to the
    next. *)
Record aworld : Type := AWorld {
  base : world nat;
  coroutines : list coroutine;
  fetch_calls : nat
}.

Abbreviation AM := (Prog aworld).

Definition lift {A} (m : M nat A) : AM A :=
  fun aw =>
    match m (base aw) with
    | (r, w') => (r, AWorld w' (coroutines aw) (fetch_calls aw))
    end.

(** [execute_fetch()]: a new coroutine object; its body has not started. *)
Definition new_coroutine (key : string) (options : Options)
    (cached_entry : option CacheEntry) : AM nat :=
  fun aw =>
    (inl (length (coroutines aw)),
     AWorld (base aw)
            (coroutines aw ++ [mkCoroutine key options cached_entry CORO_CREATED])
            (fetch_calls aw)).

Definition set_state (c : nat) (st : coro_state) : AM unit :=
  fun aw =>
    (inl tt,
     AWorld (base aw)
            (alter (fun co => mkCoroutine (co_key co) (co_options co)
                                (co_cached_entry co) st) c (coroutines aw))
            (fetch_calls aw)).

(** The call [fetch_fn()]. *)
Definition call_fetch_fn : AM unit :=
  fun aw => (inl tt, AWorld (base aw) (coroutines aw) (S (fetch_calls aw))).

(** How far a task gets when the event loop runs it: [with_cache] has
    returned, or it is suspended in [await fetch_fn()] inside the coroutine
    it awaits. *)
Inductive progress : Type :=
  | Returned (v : json)
  | Awaiting (c : nat).

(** [await c] for a coroutine object [c].  A fresh coroutine starts: the
    body of [execute_fetch] runs up to [await fetch_fn()], where the task
    is suspended until the fetch settles.  A coroutine object is not a
    future: one that is suspended in an [await] of its own cannot be awaited
    by a second task, the interpreter raises
    [RuntimeError("coroutine is being awaited already")] at the [await];
    a finished one raises
    [RuntimeError("cannot reuse already awaited coroutine")]. *)
Definition await_coroutine (c : nat) : AM progress :=
  fun aw =>
    match coroutines aw !! c with
    | Some co =>
        match co_state co with
        | CORO_CREATED =>
            (set_state c CORO_RUNNING ;;;
             lift _record_request ;;;
             call_fetch_fn ;;;
             set_state c CORO_SUSPENDED ;;;
             ret (Awaiting c)) aw
        | CORO_RUNNING =>
            (inr (PyExc "ValueError" "coroutine already executing"), aw)
        | CORO_SUSPENDED =>
            (inr (PyExc "RuntimeError" "coroutine is being awaited already"), aw)
        | CORO_CLOSED =>
            (inr (PyExc "RuntimeError" "cannot reuse already awaited coroutine"), aw)
        end
    | None => (inr (PyExc "TypeError" "object can't be used in 'await' expression"), aw)
    end.

(** [with_cache], from the call up to its first suspension. *)
Definition admission_then_fetch (key : string) (options : Options)
    (cached_entry : option CacheEntry) : AM progress :=
  limited <- lift _has_reached_rate_limit ;;
  if limited && negb (critical options) then
    v <- lift (rate_limited cached_entry options) ;;
    ret (Returned v)
  else
    fetch_promise <- new_coroutine key options cached_entry ;;
    lift (modify (fun s =>
            set_pending_requests (<[key := fetch_promise]> (pending_requests s)) s)) ;;;
    await_coroutine fetch_promise.

Definition with_cache (key : string) (options : Options) : AM progress :=
  try_except
    (pending <- lift (gets pending_requests) ;;
     match pending !! key, negb (force_refresh options) with
     | Some c, true => await_coroutine c
     | _, _ =>
         cached_entry <- lift (gets (fun s => cache s !! key)) ;;
         match cached_entry with
         | Some e =>
             if negb (force_refresh options) then
               expired <- lift (is_expired e) ;;
               if negb expired then ret (Returned (data e))
               else admission_then_fetch key options cached_entry
             else admission_then_fetch key options cached_entry
         | None => admission_then_fetch key options cached_entry
         end
     end)
    (fun error => raise error).

(** The finally block of [execute_fetch]. *)
Definition clean_up_pending (key : string) : AM unit :=
  pending <- lift (gets pending_requests) ;;
  if bool_decide (is_Some (pending !! key)) then
    lift (modify (fun s => set_pending_requests (delete key (pending_requests s)) s))
  else ret tt.

(** The rest of the task that awaits coroutine [c], once the fetch it is
    suspended in has settled with [outcome]: the body of [execute_fetch]
    after [await fetch_fn()], then the [return await fetch_promise] of
    [with_cache] and its handler.  Only a suspended coroutine can be
    resumed. *)
Definition fetch_settled (c : nat) (outcome : result json) : AM json :=
  fun aw =>
    match coroutines aw !! c with
    | Some (mkCoroutine key options cached_entry CORO_SUSPENDED) =>
        try_except
          (v <- try_finally
                  (try_except
                     (result <- (fun aw' => (outcome, aw')) ;;
                      entry <- lift (CacheEntry_init result (ttl options)) ;;
                      lift (modify (fun s =>
                              set_cache (<[key := entry]> (cache s)) s)) ;;;
                      lift _persist_cache ;;;
                      ret result)
                     (fun error =>
                        match cached_entry with
                        | Some e =>
                            if fallback_to_cache options then ret (data e)
                            else raise error
                        | None => raise error
                        end))
                  (clean_up_pending key) ;;
           set_state c CORO_CLOSED ;;;
           ret v)
          (fun error => set_state c CORO_CLOSED ;;; raise error) aw
    | _ => (inr (PyExc "RuntimeError" "coroutine is not suspended"), aw)
    end.

End Async.

(** ** [make_api_request] of [src/server.py], the caller of the cache

    The function reads the API key from the environment, builds the URL
    and the cache key, picks a time to live from the endpoint and calls
    [tao_stats_cache.with_cache], the blocking service.  The HTTP exchange
    ([httpx.get], [raise_for_status], [response.json()]) is a program
    [http] of the monad, given the URL, the parameters and the key: it
    yields the decoded body or raises.  [str(params)], the rendering of the
    parameter dict in the cache key, is an argument. *)

Module Server.

Definition TAOSTATS_API_BASE_URL : string := "https://api.taostats.io/api".
Definition TAOSTATS_DTAO_API_BASE_URL : string := "https://api.taostats.io/api/dtao".

(** [k in s] on strings. *)
Fixpoint contains (k s : string) : bool :=
  String.prefix k s ||
  match s with
  | EmptyString => false
  | String _ s' => contains k s'
  end.

(** [any(k in endpoint for k in keys)] *)
Definition any_in (keys : list string) (endpoint : string) : bool :=
  existsb (fun k => contains k endpoint) keys.

(** The time to live chosen for an endpoint. *)
Definition ttl_for (endpoint : string) : Z :=
  if any_in ["registration"; "historical"; "history"] endpoint then
    24 * 60 * 60 * 1000
  else if any_in ["neuron"; "subnet"; "stake"] endpoint then
    60 * 60 * 1000
  else 5 * 60 * 1000.

(** The URL of a request. *)
Definition url_for (endpoint version : string) (use_dtao : bool) : string :=
  if use_dtao then TAOSTATS_DTAO_API_BASE_URL +:+ "/" +:+ endpoint
  else if startswith endpoint "dtao/" then TAOSTATS_API_BASE_URL +:+ "/" +:+ endpoint
  else TAOSTATS_API_BASE_URL +:+ "/" +:+ endpoint +:+ "/" +:+ version.

(** [except httpx.TimeoutException]: the class and its subclasses. *)
Definition is_timeout (e : exn) : bool :=
  match e with
  | PyExc cls _ =>
      bool_decide (cls ∈ ["TimeoutException"; "ConnectTimeout"; "ReadTimeout";
                          "WriteTimeout"; "PoolTimeout"])
  end.

Definition empty_data : json := JObj [("data", JList [])].

Definition timed_out : json :=
  JObj [("data", JList []); ("error", JStr "Request timed out")].

(** [make_actual_request]: every exception of the exchange becomes a
    value (the handlers for [HTTPStatusError] and for [Exception] return
    the same dict). *)
Definition make_actual_request (http : Sync.M json) : Sync.M json :=
  try_except http (fun e => if is_timeout e then ret timed_out else ret empty_data).

(** The options [make_api_request] passes to [with_cache]. *)
Definition request_options (endpoint : string) : Options :=
  mkOptions (ttl_for endpoint) false true false true.

(** [make_api_request].  [api_key] is [os.getenv("TAOSTATS_API_KEY")];
    an empty string is falsy. *)
Definition make_api_request (api_key : option string)
    (http : string -> string -> string -> Sync.M json)
    (endpoint params version : string) (use_dtao : bool) : Sync.M json :=
  match api_key with
  | None | Some EmptyString => ret empty_data
  | Some key =>
      let url := url_for endpoint version use_dtao in
      let cache_key := url +:+ ":" +:+ params in
      Sync.with_cache cache_key (make_actual_request (http url params key))
                      (request_options endpoint)
  end.

End Server.

(** * Worlds and outcomes named in the statements *)

Section Worlds.
Context {P : Type}.
Implicit Types (w : world P) (c : gmap string CacheEntry) (key : string)
  (options : Options) (cached_entry : option CacheEntry).

(** The world after one reading of the clock. *)
Definition tick w : world P :=
  World (self w) (disk w) (clock w) (S (ticks w)).

(** The world after a purge of the ledger. *)
Definition purged w : world P :=
  World (set_request_timestamps
           (in_window (clock w (ticks w)) (request_timestamps (self w))) (self w))
        (disk w) (clock w) (S (ticks w)).

(** The world with another entry store. *)
Definition with_entries c w : world P :=
  World (set_cache c (self w)) (disk w) (clock w) (ticks w).

(** The world after the test for a live entry: [is_expired] reads the
    clock when there is an entry and [force_refresh] is off. *)
Definition looked_up options cached_entry w : world P :=
  match cached_entry with
  | Some _ => if force_refresh options then w else tick w
  | None => w
  end.

(** The world after [self.pending_requests[key] = v]. *)
Definition registered key (v : P) w : world P :=
  World (set_pending_requests (<[key := v]> (pending_requests (self w))) (self w))
        (disk w) (clock w) (ticks w).

(** The world after [_record_request]. *)
Definition recorded w : world P :=
  World (set_request_timestamps
           (request_timestamps (self w) ++ [clock w (ticks w)]) (self w))
        (disk w) (clock w) (S (ticks w)).

(** The world after the [finally] block. *)
Definition cleaned key w : world P :=
  World (set_pending_requests (delete key (pending_requests (self w))) (self w))
        (disk w) (clock w) (ticks w).

(** The outcome of a call that is denied for the rate limit and has no
    usable entry. *)
Definition denied options (n : nat) (limit wait_time : Z) : result json :=
  if fail_silently options then inl JNull
  else inr (Exception (rate_limit_message n limit wait_time)).

(** The outcome of a call whose fetch failed with [error]. *)
Definition fallen_back options cached_entry (error : exn) : result json :=
  match cached_entry with
  | Some e => if fallback_to_cache options then inl (data e) else inr error
  | None => inr error
  end.

(** The document [_persist_cache] writes. *)
Definition encode_entry (kv : string * CacheEntry) : json :=
  JList [JStr kv.1; to_dict kv.2].

Definition snapshot (now : Z) (s : service P) : json :=
  JObj [("timestamp", JInt now);
        ("requestTimestamps", JList (JInt <$> request_timestamps s));
        ("entries", JList (encode_entry <$> map_to_list (cache s)))].

(** One step of the restoring loop, at a fixed time. *)
Definition keep_live (now : Z) c (kv : string * CacheEntry) :
    gmap string CacheEntry :=
  if bool_decide (now > expires_at kv.2) then c else <[kv.1 := kv.2]> c.

(** The world after [_persist_cache]. *)
Definition persisted w : world P :=
  if persistent_cache_enabled (self w) then
    World (self w) (Some (snapshot (clock w (ticks w)) (self w)))
          (clock w) (S (ticks w))
  else w.

(** The world after [self.cache[key] = CacheEntry(result, ttl)] and the
    snapshot write that follows it. *)
Definition stored key (result : json) (ttl : Z) w : world P :=
  persisted
    (World (set_cache
              (<[key := mkCacheEntry result (clock w (ticks w))
                                     (clock w (ticks w) + ttl)]> (cache (self w)))
              (self w))
           (disk w) (clock w) (S (ticks w))).

End Worlds.

(** The world in which the blocking service calls [fetch_fn]: the key is
    marked as pending and the request is recorded. *)
Definition fetching (key : string) (w : Sync.world) : Sync.world :=
  recorded (registered key true w).

(** The coroutine object of a call, suspended in [await fetch_fn()]. *)
Definition suspended (key : string) (options : Options)
    (cached_entry : option CacheEntry) : Async.coroutine :=
  Async.mkCoroutine key options cached_entry Async.CORO_SUSPENDED.

(** The world in which the owner of a fetch is suspended. *)
Definition awaiting (key : string) (options : Options)
    (cached_entry : option CacheEntry) (aw : Async.aworld) : Async.aworld :=
  Async.AWorld
    (recorded (registered key (length (Async.coroutines aw))
                 (purged (looked_up options cached_entry (Async.base aw)))))
    (Async.coroutines aw ++ [suspended key options cached_entry])
    (S (Async.fetch_calls aw)).

(** ** The scenario of five fetches within ten milliseconds *)

Module Scenario.

(** A fetch that reaches the upstream reads the clock four times (purge,
    record, entry creation, snapshot), so the readings below put the i-th
    of five fetches at time i-1 and everything after them at time 10. *)
Definition readings (n : nat) : Z :=
  if (n <? 20)%nat then Z.of_nat (n / 4) else 10.

(** No snapshot file; the service object is built by [init]. *)
Definition start : Sync.world :=
  World (Service ∅ ∅ [] 0 false) None readings 0.

Definition upstream (v : Z) : Sync.M json := ret (JInt v).

Definition five_fetches : Sync.M json :=
  init 5 true ;;;
  Sync.with_cache "key1" (upstream 1) default_options ;;;
  Sync.with_cache "key2" (upstream 2) default_options ;;;
  Sync.with_cache "key3" (upstream 3) default_options ;;;
  Sync.with_cache "key4" (upstream 4) default_options ;;;
  Sync.with_cache "key5" (upstream 5) default_options.

Definition after_five : Sync.world := snd (five_fetches start).

End Scenario.

(** ** Two concurrent callers of the coroutine service *)

Module Coalescing.

(** A new service: no entry, no request in flight, an empty ledger. *)
Definition fresh : Async.aworld :=
  Async.AWorld (World (Service ∅ ∅ [] 5 true) None (fun _ => 0) 0) [] 0.

(** The event loop runs the first caller up to [await fetch_fn()], then
    the second caller; then the fetch settles with the value 1 and the
    first caller runs to its end. *)
Definition first_call : result Async.progress * Async.aworld :=
  Async.with_cache "k" default_options fresh.

Definition second_call : result Async.progress * Async.aworld :=
  Async.with_cache "k" default_options (snd first_call).

Definition settled : result json * Async.aworld :=
  Async.fetch_settled 0 (inl (JInt 1)) (snd second_call).

End Coalescing.

(** ** Concrete inputs *)

(** One entry, nothing else. *)
Definition one_entry_world : Sync.world :=
  World (Service {["k" := mkCacheEntry (JInt 7) 0 100]} ∅ [] 5 true)
        None (fun _ => 50) 0.

(** An entry for "k" that expired at time 100, a full ledger (one request
    at time 1000 under a limit of one), the clock at 2000. *)
Definition stale_full_world : Sync.world :=
  World (Service {["k" := mkCacheEntry (JInt 7) 0 100]} ∅ [1000] 1 true)
        None (fun _ => 2000) 0.

(** The same, with a request for "k" in flight. *)
Definition stale_full_pending_world : Sync.world :=
  World (Service {["k" := mkCacheEntry (JInt 7) 0 100]} {["k" := true]} [1000] 1 true)
        None (fun _ => 2000) 0.

(** No entry at all, an empty ledger under a limit of five. *)
Definition empty_world : Sync.world :=
  World (Service ∅ ∅ [] 5 true) None (fun _ => 2000) 0.

(** The entry for "p" was cached at time 0 for 1000 ms; it is now 2000. *)
Definition refetch_world : Sync.world :=
  World (Service {["p" := mkCacheEntry (JStr "original") 0 1000]} ∅ [0] 5 true)
        None (fun _ => 2000) 0.

Definition refetch_aworld : Async.aworld :=
  Async.AWorld
    (World (Service {["p" := mkCacheEntry (JStr "original") 0 1000]} ∅ [0] 5 true)
           None (fun _ => 2000) 0) [] 0.

(** A live entry for "k" (it expires at 100, the clock reads 50), a full
    ledger, and a snapshot file. *)
Definition live_world : Sync.world :=
  World (Service {["k" := mkCacheEntry (JInt 7) 0 100]} ∅ [10; 20] 2 true)
        (Some JNull) (fun _ => 50) 0.

Definition live_aworld : Async.aworld :=
  Async.AWorld
    (World (Service {["k" := mkCacheEntry (JInt 7) 0 100]} ∅ [10; 20] 2 true)
           (Some JNull) (fun _ => 50) 0) [] 0.

(** A service with an expired and a live entry and with an old and a
    recent request, read at time 100000. *)
Definition mixed_world : Sync.world :=
  World (Service (<["old" := mkCacheEntry (JInt 1) 0 100]>
                   (<["new" := mkCacheEntry (JInt 2) 90000 200000]> ∅))
                 ∅ [10000; 50000] 5 true)
        None (fun _ => 100000) 0.

(** An upstream that is down. *)
Definition upstream_down : exn := PyExc "ConnectionError" "upstream unreachable".

Definition failing_fetch : Sync.M json := raise upstream_down.

Definition silent_options : Options := mkOptions 3600000 false true false true.

Definition refresh_options : Options := mkOptions 1000 true true false false.

(** * Properties *)

(** ** Running the monad *)

Ltac run :=
  cbv [bind ret raise try_except try_finally gets modify time_ms
       read_file write_file];
  cbn [fst snd self disk clock ticks cache pending_requests
       request_timestamps minute_request_limit persistent_cache_enabled
       set_cache set_pending_requests set_request_timestamps].

(** ** Basic facts *)

Lemma lookup_app_r_singleton {A} (l : list A) (x : A) :
  (l ++ [x])%list !! length l = Some x.
Proof. by apply list_lookup_middle. Qed.

Lemma alter_app_r_singleton {A} (f : A -> A) (l : list A) (x : A) :
  alter f (length l) (l ++ [x])%list = (l ++ [f x])%list.
Proof. by rewrite <- (Nat.add_0_r (length l)), alter_app_r. Qed.

Lemma looked_up_self {P} options cached_entry (w : world P) :
  self (looked_up options cached_entry w) = self w.
Proof.
  unfold looked_up. by destruct cached_entry; [destruct (force_refresh _)|].
Qed.

Lemma try_except_reraise {S A} (m : Prog S A) s :
  try_except m (fun error => raise error) s = m s.
Proof. unfold try_except, raise. by destruct (m s) as [[a|e] s']. Qed.

(** ** The call ledger *)

Section Ledger.
Context {P : Type}.
Implicit Types (w : world P) (l : list Z).

Lemma cleanup_expired_timestamps_run w :
  _cleanup_expired_timestamps w = (inl tt, purged w).
Proof. reflexivity. Qed.

Lemma has_reached_rate_limit_run w :
  _has_reached_rate_limit w =
    (inl (bool_decide
            (Z.of_nat (length (request_timestamps (self (purged w))))
             >= minute_request_limit (self w))),
     purged w).
Proof. reflexivity. Qed.

Lemma elem_of_in_window now l t :
  t ∈ in_window now l <-> t ∈ l /\ now - t < window_size_ms.
Proof. unfold in_window. rewrite list_elem_of_filter. tauto. Qed.

Lemma insert_sorted_cons x y l :
  exists r, insert_sorted x (y :: l) = Z.min x y :: r.
Proof.
  cbn [insert_sorted]. case_bool_decide.
  - exists (y :: l). f_equal. lia.
  - exists (insert_sorted x l). f_equal. lia.
Qed.

Lemma insert_sorted_nonempty x l : insert_sorted x l <> [].
Proof. destruct l; cbn [insert_sorted]; [|case_bool_decide]; discriminate. Qed.

(** [sorted(l)[0]] is the least element of a non-empty list. *)
Lemma sorted_head l :
  l <> [] ->
  exists m r, sorted l = m :: r /\ m ∈ l /\ (forall t, t ∈ l -> m <= t).
Proof.
  induction l as [|x l IH]; [congruence|intros _].
  destruct l as [|y l].
  - exists x, []. repeat split; [set_solver|].
    intros t Ht. apply list_elem_of_singleton in Ht. lia.
  - destruct IH as (m & r & Hs & Hm & Hle); [discriminate|].
    change (sorted (x :: y :: l)) with (insert_sorted x (sorted (y :: l))).
    rewrite Hs. destruct (insert_sorted_cons x m r) as [r' ->].
    exists (Z.min x m), r'. split; [reflexivity|]. split.
    + rewrite elem_of_cons.
      destruct (Z.min_spec x m) as [[_ ->]|[_ ->]]; auto.
    + intros t Ht. apply elem_of_cons in Ht as [->|Ht]; [lia|].
      specialize (Hle t Ht). lia.
Qed.

Lemma get_wait_time_ms_empty w :
  request_timestamps (self w) = [] -> _get_wait_time_ms w = (inl 0, w).
Proof. intros H. unfold _get_wait_time_ms. run. rewrite H. reflexivity. Qed.

Lemma get_wait_time_ms_oldest w m :
  m ∈ request_timestamps (self w) ->
  (forall t, t ∈ request_timestamps (self w) -> m <= t) ->
  _get_wait_time_ms w =
    (inl (Z.max 0 ((m + window_size_ms) - clock w (ticks w))), tick w).
Proof.
  intros Hm Hmin. unfold _get_wait_time_ms. run.
  destruct (request_timestamps (self w)) as [|x l] eqn:E; [by apply elem_of_nil in Hm|].
  destruct (sorted_head (x :: l)) as (m' & r & -> & Hm' & Hmin'); [discriminate|].
  assert (m' = m) as -> by (specialize (Hmin m' Hm'); specialize (Hmin' m Hm); lia).
  reflexivity.
Qed.

(** Whatever the ledger holds, the wait time is computed without error,
    and the service is left as it was. *)
Lemma get_wait_time_ms_total w :
  exists wait n,
    _get_wait_time_ms w =
      (inl wait, World (self w) (disk w) (clock w) (n + ticks w)) /\ 0 <= wait.
Proof.
  destruct (request_timestamps (self w)) as [|x l] eqn:E.
  - exists 0, 0%nat. rewrite get_wait_time_ms_empty by done.
    destruct w; split; [reflexivity|lia].
  - destruct (sorted_head (x :: l)) as (m & r & _ & Hm & Hmin); [discriminate|].
    rewrite <- E in Hm, Hmin.
    eexists _, 1%nat. rewrite (get_wait_time_ms_oldest w m Hm Hmin).
    split; [reflexivity|lia].
Qed.

End Ledger.

Lemma window_size_ms_eq : window_size_ms = 60000.
Proof. reflexivity. Qed.

(** ** Invalidation *)

Arguments startswith : simpl never.

Section Invalidation.
Context {P : Type}.
Implicit Types (w : world P) (c : gmap string CacheEntry).

Lemma startswith_spec key prefix :
  startswith key prefix = true <-> exists rest, key = prefix +:+ rest.
Proof.
  unfold startswith. revert key.
  induction prefix as [|a prefix IH]; intros key; cbn.
  - destruct key; split; eauto.
  - destruct key as [|b key]; cbn.
    + split; [discriminate|]. intros [rest [=]].
    + destruct (Ascii.ascii_dec a b) as [->|Hne].
      * rewrite IH. split; intros [rest Hrest]; exists rest.
        -- rewrite Hrest. reflexivity.
        -- change (String b key = String b (prefix +:+ rest)) in Hrest. congruence.
      * split; [discriminate|]. intros [rest Hrest].
        change (String b key = String a (prefix +:+ rest)) in Hrest. congruence.
Qed.

Lemma del_cache_present key w e :
  cache (self w) !! key = Some e ->
  del_cache key w = (inl tt, with_entries (delete key (cache (self w))) w).
Proof. intros H. unfold del_cache. run. rewrite H. reflexivity. Qed.

Lemma invalidate_keys_run prefix keys : forall count w,
  NoDup keys ->
  (forall k, k ∈ keys -> is_Some (cache (self w) !! k)) ->
  invalidate_keys prefix keys count w =
    (inl (count + Z.of_nat (length (filter (fun k => startswith k prefix = true) keys))),
     with_entries
       (filter (fun kv => ~ (kv.1 ∈ keys /\ startswith kv.1 prefix = true))
               (cache (self w))) w).
Proof.
  induction keys as [|key keys IH]; intros count w Hnd Hin.
  - cbn. rewrite Z.add_0_r. unfold ret, with_entries. do 2 f_equal.
    destruct w as [[]]; cbn. f_equal. unfold set_cache; cbn. f_equal.
    symmetry. apply map_filter_id. intros k e _ [Hk _]. by apply elem_of_nil in Hk.
  - apply NoDup_cons in Hnd as [Hkey Hnd].
    change (invalidate_keys prefix (key :: keys) count)
      with (if startswith key prefix
            then @del_cache P key ;;; invalidate_keys prefix keys (count + 1)
            else invalidate_keys prefix keys count).
    rewrite filter_cons.
    destruct (startswith key prefix) eqn:Hsw.
    + destruct (Hin key) as [e He]; [apply list_elem_of_here|].
      unfold bind at 1. rewrite (del_cache_present _ _ _ He).
      rewrite IH; [|done|].
      * rewrite decide_True by done. cbn [length]. f_equal; [f_equal; lia|].
        unfold with_entries, set_cache.
        cbn [self disk clock ticks cache pending_requests request_timestamps
             minute_request_limit persistent_cache_enabled].
        do 2 f_equal.
        apply map_eq. intros k. rewrite !map_lookup_filter.
        destruct (decide (k = key)) as [->|Hne].
        -- rewrite lookup_delete_eq, He. cbn.
           rewrite option_guard_False; [done|].
           intros Hn. apply Hn. split; [apply list_elem_of_here|done].
        -- rewrite lookup_delete_ne by done.
           destruct (cache (self w) !! k) as [e'|]; [cbn|done].
           apply option_guard_iff. cbn [fst snd]. rewrite elem_of_cons. tauto.
      * intros k Hk. cbn. rewrite lookup_delete_ne; [apply Hin; by apply list_elem_of_further|].
        intros ->. done.
    + rewrite decide_False by discriminate.
      rewrite IH; [|done|intros k Hk; apply Hin; by apply list_elem_of_further].
      f_equal. unfold with_entries. do 2 f_equal.
      apply map_filter_ext. intros k e' _. cbn [fst snd]. rewrite elem_of_cons.
      split; intros Hn [Hk Hp]; apply Hn; [|tauto].
      destruct Hk as [->|Hk]; [congruence|done].
Qed.

End Invalidation.

Section InvalidationClaims.
Context {P : Type}.
Implicit Types (w : world P) (c : gmap string CacheEntry).

Lemma size_filter_entries (Q : string * CacheEntry -> Prop)
    `{!forall kv, Decision (Q kv)} c :
  size (filter Q c) = length (filter Q (map_to_list c)).
Proof.
  rewrite map_filter_alt, <- length_map_to_list.
  apply Permutation_length, map_to_list_to_map.
  eapply NoDup_fmap_fst.
  - intros k x y Hx Hy. apply list_elem_of_filter in Hx as [_ Hx].
    apply list_elem_of_filter in Hy as [_ Hy].
    apply elem_of_map_to_list in Hx, Hy. congruence.
  - apply NoDup_filter, NoDup_map_to_list.
Qed.

Lemma length_filter_keys (Q : string -> Prop) `{!forall k, Decision (Q k)}
    (l : list (string * CacheEntry)) :
  length (filter Q l.*1) = length (filter (fun kv => Q kv.1) l).
Proof.
  induction l as [|kv l IH]; [reflexivity|].
  rewrite fmap_cons, !filter_cons. cbn [fst].
  destruct (decide (Q kv.1)); cbn [length]; lia.
Qed.

Lemma invalidate_by_prefix_run prefix w :
  invalidate_by_prefix prefix w =
    (inl (Z.of_nat (size (filter (fun kv => startswith kv.1 prefix = true)
                                 (cache (self w))))),
     with_entries (filter (fun kv => startswith kv.1 prefix <> true)
                          (cache (self w))) w).
Proof.
  unfold invalidate_by_prefix. run.
  rewrite invalidate_keys_run.
  - rewrite Z.add_0_l, size_filter_entries, length_filter_keys. do 3 f_equal.
    apply map_filter_ext. intros k e He. cbn [fst].
    assert (k ∈ (map_to_list (cache (self w))).*1).
    { apply list_elem_of_fmap. exists (k, e). split; [done|].
      by apply elem_of_map_to_list. }
    tauto.
  - apply NoDup_fst_map_to_list.
  - intros k Hk. apply list_elem_of_fmap in Hk as ([k' e] & -> & Hk).
    apply elem_of_map_to_list in Hk. eauto.
Qed.

End InvalidationClaims.

(** ** [with_cache] of the blocking service *)

Section SyncCalls.
Implicit Types (w : Sync.world) (key : string) (options : Options)
  (cached_entry : option CacheEntry) (fetch_fn : Sync.M json).

Lemma clean_up_pending_run key w :
  Sync.clean_up_pending key w = (inl tt, cleaned key w).
Proof.
  unfold Sync.clean_up_pending, cleaned. run. case_bool_decide as Hk.
  - reflexivity.
  - rewrite delete_id by (by apply eq_None_not_Some).
    by destruct w as [[]].
Qed.

Lemma fetch_failure_run key fetch_fn options cached_entry w error w_f :
  fetch_fn (fetching key w) = (inr error, w_f) ->
  Sync.fetch key fetch_fn options cached_entry w =
    (fallen_back options cached_entry error, cleaned key w_f).
Proof.
  intros Hfetch. unfold Sync.fetch, _record_request, fallen_back. run.
  unfold fetching, recorded, registered in Hfetch.
  cbn [self disk clock ticks cache pending_requests request_timestamps
       minute_request_limit persistent_cache_enabled
       set_pending_requests set_request_timestamps] in Hfetch.
  rewrite Hfetch.
  destruct cached_entry as [e|]; [destruct (fallback_to_cache options)|];
    run; rewrite clean_up_pending_run; reflexivity.
Qed.

Lemma rate_limited_run cached_entry options w :
  exists wait w',
    _get_wait_time_ms w = (inl wait, w') /\
    self w' = self w /\ disk w' = disk w /\
    rate_limited cached_entry options w =
      (match cached_entry with
       | Some e =>
           if fallback_to_cache options then inl (data e)
           else denied options (length (request_timestamps (self w)))
                       (minute_request_limit (self w)) wait
       | None =>
           denied options (length (request_timestamps (self w)))
                  (minute_request_limit (self w)) wait
       end, w').
Proof.
  destruct (get_wait_time_ms_total w) as (wait & n & Hwait & _).
  exists wait, (World (self w) (disk w) (clock w) (n + ticks w)).
  split; [done|]. split; [done|]. split; [done|].
  unfold rate_limited, rate_limit_denial, denied.
  destruct cached_entry as [e|]; [destruct (fallback_to_cache options)|];
    unfold bind at 1; rewrite Hwait; run;
    try destruct (fail_silently options); reflexivity.
Qed.

Lemma admission_denied key fetch_fn options cached_entry w :
  critical options = false ->
  Z.of_nat (length (request_timestamps (self (purged w))))
    >= minute_request_limit (self w) ->
  Sync.admission_then_fetch key fetch_fn options cached_entry w =
    rate_limited cached_entry options (purged w).
Proof.
  intros Hc Hlim. unfold Sync.admission_then_fetch. unfold bind at 1.
  rewrite has_reached_rate_limit_run, bool_decide_eq_true_2, Hc by done.
  reflexivity.
Qed.

Lemma admission_granted key fetch_fn options cached_entry w :
  Z.of_nat (length (request_timestamps (self (purged w))))
    < minute_request_limit (self w) \/ critical options = true ->
  Sync.admission_then_fetch key fetch_fn options cached_entry w =
    Sync.fetch key fetch_fn options cached_entry (purged w).
Proof.
  intros Hadm. unfold Sync.admission_then_fetch. unfold bind at 1.
  rewrite has_reached_rate_limit_run.
  destruct Hadm as [Hlt| ->].
  - rewrite bool_decide_eq_false_2 by lia. reflexivity.
  - rewrite andb_false_r. reflexivity.
Qed.

(** A call that passes the pending test and finds no live entry goes on
    to the admission check. *)
Lemma with_cache_no_live_entry key fetch_fn options w :
  pending_requests (self w) !! key = None \/ force_refresh options = true ->
  (forall e, cache (self w) !! key = Some e ->
     force_refresh options = true \/ clock w (ticks w) > expires_at e) ->
  Sync.with_cache key fetch_fn options w =
    Sync.admission_then_fetch key fetch_fn options (cache (self w) !! key)
      (looked_up options (cache (self w) !! key) w).
Proof.
  intros Hpend Hdead. unfold Sync.with_cache. rewrite try_except_reraise.
  unfold bind at 1, gets at 1.
  assert (bool_decide (is_Some (pending_requests (self w) !! key))
          && negb (force_refresh options) = false) as ->.
  { destruct Hpend as [-> | ->]; [|apply andb_false_r].
    rewrite bool_decide_eq_false_2; [done|]. by intros [? [=]]. }
  unfold bind at 1, gets at 1. cbn [looked_up].
  destruct (cache (self w) !! key) as [e|] eqn:He; [|reflexivity].
  cbn [looked_up]. destruct (force_refresh options) eqn:Hf; [reflexivity|].
  cbn [negb]. unfold is_expired. run.
  destruct (Hdead e eq_refl) as [[=]|Hexp].
  rewrite bool_decide_eq_true_2 by done. reflexivity.
Qed.

End SyncCalls.

(** ** [with_cache] of the coroutine service *)

Section AsyncCalls.
Implicit Types (aw : Async.aworld) (key : string) (options : Options).

Lemma async_hit key options e aw :
  force_refresh options = false ->
  pending_requests (self (Async.base aw)) !! key = None ->
  cache (self (Async.base aw)) !! key = Some e ->
  ~ clock (Async.base aw) (ticks (Async.base aw)) > expires_at e ->
  Async.with_cache key options aw =
    (inl (Async.Returned (data e)),
     Async.AWorld (tick (Async.base aw)) (Async.coroutines aw) (Async.fetch_calls aw)).
Proof.
  intros Hforce Hpend He Hlive.
  unfold Async.with_cache. rewrite try_except_reraise.
  unfold Async.lift, is_expired. run.
  rewrite Hpend. cbv beta iota. cbn [Async.base Async.coroutines Async.fetch_calls].
  rewrite He, Hforce. cbn [negb]. cbv beta iota.
  cbn [Async.base Async.coroutines Async.fetch_calls].
  rewrite bool_decide_eq_false_2 by done. reflexivity.
Qed.

(** A second caller for a key whose fetch is in flight awaits the
    coroutine object of the first caller, which is suspended in its own
    [await]: the call raises [RuntimeError] and changes nothing. *)
Lemma async_join key options c co aw :
  force_refresh options = false ->
  pending_requests (self (Async.base aw)) !! key = Some c ->
  Async.coroutines aw !! c = Some co ->
  Async.co_state co = Async.CORO_SUSPENDED ->
  Async.with_cache key options aw =
    (inr (PyExc "RuntimeError" "coroutine is being awaited already"), aw).
Proof.
  intros Hforce Hpend Hc Hst.
  unfold Async.with_cache. rewrite try_except_reraise.
  unfold Async.lift. run. rewrite Hpend, Hforce. cbn [negb].
  unfold Async.await_coroutine.
  cbn [Async.base Async.coroutines Async.fetch_calls].
  rewrite Hc, Hst. by destruct aw as [[]].
Qed.

(** A call that reaches the fetch step creates its coroutine, registers
    it, records the request, calls [fetch_fn] and is suspended. *)
Lemma async_start key options aw :
  let w := Async.base aw in
  let cached_entry := cache (self w) !! key in
  let w1 := looked_up options cached_entry w in
  pending_requests (self w) !! key = None \/ force_refresh options = true ->
  (forall e, cached_entry = Some e ->
     force_refresh options = true \/ clock w (ticks w) > expires_at e) ->
  Z.of_nat (length (request_timestamps (self (purged w1))))
    < minute_request_limit (self w) \/ critical options = true ->
  Async.with_cache key options aw =
    (inl (Async.Awaiting (length (Async.coroutines aw))),
     awaiting key options cached_entry aw).
Proof.
  intros w cached_entry w1 Hpend Hdead Hadm.
  assert (forall cached aw',
            Z.of_nat (length (request_timestamps (self (purged (Async.base aw')))))
              < minute_request_limit (self (Async.base aw')) \/ critical options = true ->
            Async.admission_then_fetch key options cached aw' =
              (inl (Async.Awaiting (length (Async.coroutines aw'))),
               Async.AWorld
                 (recorded (registered key (length (Async.coroutines aw'))
                              (purged (Async.base aw'))))
                 (Async.coroutines aw' ++ [suspended key options cached])
                 (S (Async.fetch_calls aw')))) as Hfetch.
  { intros cached aw' Hadm'. unfold Async.admission_then_fetch.
    unfold bind at 1, Async.lift at 1. rewrite has_reached_rate_limit_run.
    assert (bool_decide
              (Z.of_nat (length (request_timestamps (self (purged (Async.base aw')))))
               >= minute_request_limit (self (Async.base aw')))
            && negb (critical options) = false) as ->.
    { destruct Hadm' as [Hlt| ->]; [|apply andb_false_r].
      by rewrite bool_decide_eq_false_2 by lia. }
    unfold Async.new_coroutine, Async.lift, Async.await_coroutine. run.
    cbn [Async.base Async.coroutines Async.fetch_calls].
    rewrite lookup_app_r_singleton. cbn [Async.co_state].
    unfold Async.set_state, Async.call_fetch_fn, Async.lift, _record_request. run.
    cbn [Async.base Async.coroutines Async.fetch_calls].
    rewrite !alter_app_r_singleton. reflexivity. }
  unfold Async.with_cache. rewrite try_except_reraise.
  unfold awaiting. fold w cached_entry w1.
  unfold Async.lift at 1, bind at 1, gets at 1. fold w.
  destruct (force_refresh options) eqn:Hf; cbn [negb].
  - (* force_refresh: the pending test and the cache test are skipped *)
    assert (w1 = w) as -> by (unfold w1, looked_up; rewrite Hf; by destruct cached_entry).
    destruct (pending_requests (self w) !! key) as [c0|];
      unfold Async.lift at 1, bind at 1, gets at 1;
      cbn [Async.base Async.coroutines Async.fetch_calls]; fold cached_entry;
      destruct cached_entry as [e|]; rewrite Hfetch by exact Hadm; reflexivity.
  - destruct Hpend as [Hpend|[=]]. rewrite Hpend.
    unfold Async.lift at 1, bind at 1, gets at 1.
    cbn [Async.base Async.coroutines Async.fetch_calls]. fold cached_entry.
    destruct cached_entry as [e|] eqn:He.
    + destruct (Hdead e eq_refl) as [[=]|Hexp].
      unfold Async.lift at 1, bind at 1, is_expired. run.
      cbn [Async.base Async.coroutines Async.fetch_calls].
      rewrite bool_decide_eq_true_2 by done. cbn [negb].
      assert (w1 = tick w) as -> by (unfold w1, looked_up; by rewrite Hf).
      rewrite Hfetch by exact Hadm. reflexivity.
    + assert (w1 = w) as -> by reflexivity.
      rewrite Hfetch by exact Hadm. reflexivity.
Qed.

(** When the fetch settles with an exception, the suspended coroutine runs
    its handler and its [finally] block, and the task that awaits it ends. *)
Lemma async_settled_failure c key options cached_entry error aw :
  Async.coroutines aw !! c = Some (suspended key options cached_entry) ->
  Async.fetch_settled c (inr error) aw =
    (fallen_back options cached_entry error,
     Async.AWorld (cleaned key (Async.base aw))
       (alter (fun co => Async.mkCoroutine (Async.co_key co) (Async.co_options co)
                           (Async.co_cached_entry co) Async.CORO_CLOSED)
              c (Async.coroutines aw))
       (Async.fetch_calls aw)).
Proof.
  intros Hc. unfold Async.fetch_settled. rewrite Hc. unfold suspended.
  unfold fallen_back, Async.clean_up_pending, Async.set_state, Async.lift, cleaned.
  destruct cached_entry as [e|]; [destruct (fallback_to_cache options)|];
    run; cbn [Async.base Async.coroutines Async.fetch_calls];
    (case_bool_decide as Hk;
     [reflexivity
     |rewrite delete_id by (by apply eq_None_not_Some);
      by destruct aw as [[[]]]]).
Qed.

End AsyncCalls.

(** ** The snapshot file *)

Section Snapshot.
Context {P : Type}.
Implicit Types (w : world P) (c : gmap string CacheEntry)
  (l : list (string * CacheEntry)).

Lemma persist_cache_run w :
  persistent_cache_enabled (self w) = true ->
  _persist_cache w =
    (inl tt, World (self w) (Some (snapshot (clock w (ticks w)) (self w)))
                   (clock w) (S (ticks w))).
Proof. intros H. unfold _persist_cache. run. rewrite H. reflexivity. Qed.

Lemma mapM_as_int (ts : list Z) : mapM as_int (JInt <$> ts) = Some ts.
Proof.
  induction ts as [|t ts IH]; [reflexivity|].
  rewrite fmap_cons. cbn. rewrite IH. reflexivity.
Qed.

Lemma from_dict_to_dict e w :
  from_dict (to_dict e) w = (inl e, tick w).
Proof. by destruct e. Qed.

Lemma restore_entries_run now l : forall w,
  (forall i, (ticks w <= i)%nat -> clock w i = now) ->
  restore_entries (encode_entry <$> l) w =
    (inl tt, World (set_cache (foldl (keep_live now) (cache (self w)) l) (self w))
                   (disk w) (clock w) (2 * length l + ticks w)).
Proof.
  induction l as [|[k e] l IH]; intros w Hclock.
  - cbn. unfold ret, set_cache. by destruct w as [[]].
  - rewrite fmap_cons. cbn [restore_entries encode_entry fst snd].
    unfold bind at 1. unfold bind at 1.
    rewrite from_dict_to_dict. unfold bind at 1, is_expired. run.
    unfold tick. cbn [self disk clock ticks].
    rewrite (Hclock (S (ticks w))) by lia.
    cbn [foldl]. unfold keep_live at 2. cbn [fst snd].
    destruct (bool_decide (now > expires_at e)); cbn [negb]; run;
      rewrite IH by (cbn; intros; apply Hclock; lia);
      cbn [self disk clock ticks cache set_cache length]; do 2 f_equal; lia.
Qed.

Lemma foldl_keep_live now l : forall c,
  NoDup l.*1 ->
  foldl (keep_live now) c l =
    list_to_map (filter (fun kv => now <= expires_at kv.2) l) ∪ c.
Proof.
  induction l as [|[k e] l IH]; intros c Hnd.
  - cbn. by rewrite (left_id ∅ (∪)).
  - rewrite fmap_cons in Hnd. apply NoDup_cons in Hnd as [Hk Hnd].
    cbn [foldl]. rewrite IH by done. rewrite filter_cons.
    unfold keep_live. cbn [fst snd]. case_bool_decide as Hexp.
    + rewrite decide_False by lia. reflexivity.
    + rewrite decide_True by lia. cbn [list_to_map foldr uncurry fst snd].
      rewrite <- insert_union_l. symmetry. apply insert_union_r.
      apply not_elem_of_list_to_map_1. intros Hin. apply Hk.
      apply list_elem_of_fmap in Hin as (kv & -> & Hin).
      apply list_elem_of_filter in Hin as [_ Hin].
      apply list_elem_of_fmap. by exists kv.
Qed.

Lemma initialize_cache_run now w (s : service P) :
  persistent_cache_enabled (self w) = true ->
  disk w = Some (snapshot now s) ->
  (forall i, (ticks w <= i)%nat -> clock w i = now) ->
  _initialize_cache w =
    (inl tt,
     World (set_cache (foldl (keep_live now) (cache (self w)) (map_to_list (cache s)))
              (set_request_timestamps (in_window now (request_timestamps s)) (self w)))
           (disk w) (clock w) (2 * size (cache s) + S (ticks w))).
Proof.
  intros Hen Hdisk Hclock. unfold _initialize_cache. run.
  rewrite Hen. cbn [negb]. cbv beta iota.
  rewrite Hdisk. unfold snapshot. cbv beta iota.
  change (dict_get "requestTimestamps" ?d) with (Some (JList (JInt <$> request_timestamps s))).
  change (dict_get "entries" ?d) with (Some (JList (encode_entry <$> map_to_list (cache s)))).
  cbv beta iota.
  rewrite mapM_as_int, (Hclock (ticks w)) by lia. cbv beta iota.
  rewrite restore_entries_run with (now := now) by (cbn; intros; apply Hclock; lia).
  cbn [self disk clock ticks cache set_cache set_request_timestamps
       pending_requests request_timestamps minute_request_limit
       persistent_cache_enabled].
  rewrite length_map_to_list. unfold snapshot in Hdisk. rewrite <- Hdisk.
  reflexivity.
Qed.

End Snapshot.

(** ** The model at work *)

(** A first fetch: the request is recorded, the value stored for [ttl]
    milliseconds, the snapshot written, the key no longer pending. *)
Example first_fetch :
  Sync.with_cache "k" (Scenario.upstream 1) default_options empty_world =
    (inl (JInt 1),
     World (Service {["k" := mkCacheEntry (JInt 1) 2000 3602000]} ∅ [2000] 5 true)
           (Some (JObj [("timestamp", JInt 2000);
                        ("requestTimestamps", JList [JInt 2000]);
                        ("entries",
                         JList [JList [JStr "k";
                                       JObj [("data", JInt 1);
                                             ("timestamp", JInt 2000);
                                             ("expiresAt", JInt 3602000)]]])]))
           (fun _ => 2000) 4).
Proof. vm_compute. reflexivity. Qed.

(** An entry written at [t0] with [ttl] is live at [t0 + ttl] and expired
    one millisecond later. *)
Lemma entry_expiry {P} (d : json) (ttl t0 : Z) (w : world P) :
  fst (is_expired (mkCacheEntry d t0 (t0 + ttl)) w)
    = inl (bool_decide (clock w (ticks w) - t0 > ttl)).
Proof.
  unfold is_expired. run. cbn [expires_at]. f_equal.
  apply bool_decide_ext. lia.
Qed.

(** A snapshot with one entry that expired at 100, loaded at 200: the
    store stays empty. *)
Example load_drops_expired :
  let file := JObj [("timestamp", JInt 50);
                    ("requestTimestamps", JList []);
                    ("entries",
                     JList [JList [JStr "k";
                                   JObj [("data", JInt 1);
                                         ("timestamp", JInt 0);
                                         ("expiresAt", JInt 100)]]])] in
  size (cache (self (snd (init 5 true
                            (World (Service ∅ (∅ : gmap string bool) [] 0 false)
                                   (Some file) (fun _ => 200) 0))))) = 0%nat.
Proof. vm_compute. reflexivity. Qed.

(** * The claims *)

(** C1 (amended): a call without [force_refresh] and without [critical],
    for a key that has no pending request and no live entry, made when the
    purged ledger holds at least [minute_request_limit] time stamps, ends
    at the admission check.  With an entry (expired) and [fallback_to_cache]
    it returns the stale value; otherwise with [fail_silently] it returns
    [None]; otherwise it raises the rate-limit error, whose message is built
    from the wait time computed by [_get_wait_time_ms] on the purged ledger.
    [fetch_fn] is not called: the outcome and the final world are the same
    for every [fetch_fn], the service differs from the initial one by the
    purge of the ledger only, and the snapshot file is untouched. *)
Theorem with_cache_rate_limited key fetch_fn options (w : Sync.world) :
  force_refresh options = false ->
  critical options = false ->
  pending_requests (self w) !! key = None ->
  let cached_entry := cache (self w) !! key in
  let w1 := match cached_entry with Some _ => tick w | None => w end in
  let ledger := in_window (clock w1 (ticks w1)) (request_timestamps (self w)) in
  (forall e, cached_entry = Some e -> clock w (ticks w) > expires_at e) ->
  Z.of_nat (length ledger) >= minute_request_limit (self w) ->
  exists wait w',
    _get_wait_time_ms (purged w1) = (inl wait, w') /\
    self w' = set_request_timestamps ledger (self w) /\
    disk w' = disk w /\
    Sync.with_cache key fetch_fn options w =
      (match cached_entry with
       | Some e =>
           if fallback_to_cache options then inl (data e)
           else denied options (length ledger) (minute_request_limit (self w)) wait
       | None => denied options (length ledger) (minute_request_limit (self w)) wait
       end, w') /\
    (forall fetch_fn',
       Sync.with_cache key fetch_fn' options w = Sync.with_cache key fetch_fn options w).
Proof.
  intros Hforce Hcrit Hpend cached_entry w1 ledger Hdead Hfull.
  assert (looked_up options cached_entry w = w1) as Hw1.
  { unfold looked_up, w1. rewrite Hforce. reflexivity. }
  assert (self w1 = self w /\ disk w1 = disk w) as [Hself Hdisk].
  { unfold w1. by destruct cached_entry. }
  assert (forall f, Sync.with_cache key f options w
                    = rate_limited cached_entry options (purged w1)) as Hrun.
  { intros f. rewrite with_cache_no_live_entry by auto.
    fold cached_entry. rewrite Hw1.
    apply admission_denied; [done|].
    unfold purged; cbn. by rewrite Hself. }
  destruct (rate_limited_run cached_entry options (purged w1))
    as (wait & w' & Hwait & Hs & Hd & Hlim).
  exists wait, w'. split; [done|].
  split; [|split; [|split]].
  - rewrite Hs. unfold purged. cbn [self]. by rewrite Hself.
  - rewrite Hd. unfold purged. by cbn [disk].
  - rewrite Hrun, Hlim. unfold purged.
    cbn [self request_timestamps minute_request_limit set_request_timestamps].
    by rewrite Hself.
  - intros f. by rewrite !Hrun.
Qed.

Lemma with_cache_rate_limited_witness :
  exists wait w',
    _get_wait_time_ms (purged (tick stale_full_world)) = (inl wait, w') /\
    self w' = set_request_timestamps [1000] (self stale_full_world) /\
    disk w' = None /\
    Sync.with_cache "k" failing_fetch default_options stale_full_world =
      (inl (JInt 7), w') /\
    (forall fetch_fn',
       Sync.with_cache "k" fetch_fn' default_options stale_full_world =
       Sync.with_cache "k" failing_fetch default_options stale_full_world).
Proof.
  refine (with_cache_rate_limited "k" failing_fetch default_options
            stale_full_world _ _ _ _ _).
  - reflexivity.
  - reflexivity.
  - reflexivity.
  - intros e. vm_compute. intros [= <-]. reflexivity.
  - vm_compute. discriminate.
Defined.

(** C1, as the specification has it, fails when a request for the key is
    in flight: the call returns [None] although an expired entry exists and
    [fallback_to_cache] is on. *)
Lemma with_cache_rate_limited_pending :
  force_refresh default_options = false /\
  critical default_options = false /\
  fallback_to_cache default_options = true /\
  cache (self stale_full_pending_world) !! "k" = Some (mkCacheEntry (JInt 7) 0 100) /\
  clock stale_full_pending_world (ticks stale_full_pending_world) > 100 /\
  Z.of_nat (length (in_window 2000 (request_timestamps (self stale_full_pending_world))))
    >= minute_request_limit (self stale_full_pending_world) /\
  Sync.with_cache "k" failing_fetch default_options stale_full_pending_world
    = (inl JNull, stale_full_pending_world) /\
  @inl json exn JNull <> inl (JInt 7).
Proof.
  repeat split; try reflexivity; try discriminate.
Qed.

(** C2: when a call reaches the fetch step and [fetch_fn] raises, the call
    returns the value of the entry the key had when the call began, if
    there was one (expired or not, also under [force_refresh]) and
    [fallback_to_cache] is on; otherwise it raises the exception of
    [fetch_fn] itself.  Either way the key is no longer pending.  For the
    coroutine service the call is suspended in the fetch, having called
    [fetch_fn] once, and the same holds when the fetch settles with an
    exception, whatever other tasks did to the service in between. *)
Theorem with_cache_fetch_failure key options error :
  (forall fetch_fn (w w_f : Sync.world),
     let cached_entry := cache (self w) !! key in
     let w1 := looked_up options cached_entry w in
     pending_requests (self w) !! key = None \/ force_refresh options = true ->
     (forall e, cached_entry = Some e ->
        force_refresh options = true \/ clock w (ticks w) > expires_at e) ->
     Z.of_nat (length (request_timestamps (self (purged w1))))
       < minute_request_limit (self w) \/ critical options = true ->
     fetch_fn (fetching key (purged w1)) = (inr error, w_f) ->
     Sync.with_cache key fetch_fn options w =
       (match cached_entry with
        | Some e => if fallback_to_cache options then inl (data e) else inr error
        | None => inr error
        end, cleaned key w_f)) /\
  (forall aw : Async.aworld,
     let w := Async.base aw in
     let cached_entry := cache (self w) !! key in
     let w1 := looked_up options cached_entry w in
     pending_requests (self w) !! key = None \/ force_refresh options = true ->
     (forall e, cached_entry = Some e ->
        force_refresh options = true \/ clock w (ticks w) > expires_at e) ->
     Z.of_nat (length (request_timestamps (self (purged w1))))
       < minute_request_limit (self w) \/ critical options = true ->
     exists c aw1,
       Async.with_cache key options aw = (inl (Async.Awaiting c), aw1) /\
       Async.fetch_calls aw1 = S (Async.fetch_calls aw) /\
       Async.coroutines aw1 !! c = Some (suspended key options cached_entry) /\
       forall aw2,
         Async.coroutines aw2 !! c = Some (suspended key options cached_entry) ->
         exists aw3,
           Async.fetch_settled c (inr error) aw2 =
             (match cached_entry with
              | Some e => if fallback_to_cache options then inl (data e) else inr error
              | None => inr error
              end, aw3) /\
           pending_requests (self (Async.base aw3)) !! key = None /\
           Async.fetch_calls aw3 = Async.fetch_calls aw2).
Proof.
  split.
  - intros fetch_fn w w_f cached_entry w1 Hpend Hdead Hadm Hfetch.
    rewrite with_cache_no_live_entry by done. fold cached_entry w1.
    rewrite admission_granted.
    + by apply fetch_failure_run.
    + unfold w1. rewrite looked_up_self. exact Hadm.
  - intros aw w cached_entry w1 Hpend Hdead Hadm.
    exists (length (Async.coroutines aw)), (awaiting key options cached_entry aw).
    split; [by apply async_start|]. split; [reflexivity|].
    split; [apply lookup_app_r_singleton|].
    intros aw2 Hc. eexists.
    rewrite (async_settled_failure _ _ _ _ _ _ Hc).
    split; [reflexivity|]. split; [apply lookup_delete_eq|reflexivity].
Qed.

Lemma with_cache_fetch_failure_witness :
  Sync.with_cache "p" failing_fetch refresh_options refetch_world =
    (inl (JStr "original"),
     World (Service {["p" := mkCacheEntry (JStr "original") 0 1000]} ∅ [0; 2000] 5 true)
           None (fun _ => 2000) 2) /\
  exists c aw1,
    Async.with_cache "p" refresh_options refetch_aworld = (inl (Async.Awaiting c), aw1) /\
    fst (Async.fetch_settled c (inr upstream_down) aw1) = inl (JStr "original").
Proof.
  destruct (with_cache_fetch_failure "p" refresh_options upstream_down)
    as [Hsync Hasync].
  split.
  - refine (Hsync failing_fetch refetch_world
              (fetching "p" (purged refetch_world)) _ _ _ _).
    + right. reflexivity.
    + intros e _. left. reflexivity.
    + left. vm_compute. reflexivity.
    + reflexivity.
  - destruct (Hasync refetch_aworld) as (c & aw1 & Hstart & _ & Hc & Hsettle).
    + right. reflexivity.
    + intros e _. left. reflexivity.
    + left. vm_compute. reflexivity.
    + exists c, aw1. split; [exact Hstart|].
      destruct (Hsettle aw1 Hc) as (aw3 & -> & _). reflexivity.
Defined.

(** C3: let a service with persistence enabled write its snapshot
    ([_persist_cache]) and let a new service be built from that file
    ([__init__], which starts empty and runs [_initialize_cache]), every
    clock reading of the two steps being [now].  Both steps end without
    error, and the new service holds exactly the entries of the old one
    whose [expires_at] is not before [now], and, in the same order, exactly
    the time stamps [t] of the old ledger with [now - t < 60000]. *)
Theorem snapshot_round_trip {P} (w : world P) (now limit : Z) :
  persistent_cache_enabled (self w) = true ->
  (forall i, (ticks w <= i)%nat -> clock w i = now) ->
  exists w',
    (_persist_cache ;;; init limit true) w = (inl tt, w') /\
    cache (self w') =
      filter (fun kv => ~ expires_at kv.2 < now) (cache (self w)) /\
    request_timestamps (self w') =
      filter (fun t => now - t < 60000) (request_timestamps (self w)) /\
    (forall key e,
       cache (self w') !! key = Some e <->
       cache (self w) !! key = Some e /\ ~ expires_at e < now) /\
    (forall t,
       t ∈ request_timestamps (self w') <->
       t ∈ request_timestamps (self w) /\ now - t < 60000).
Proof.
  intros Hen Hclock.
  assert (foldl (keep_live now) ∅ (map_to_list (cache (self w)))
          = filter (fun kv => ~ expires_at kv.2 < now) (cache (self w))) as Hentries.
  { rewrite foldl_keep_live by apply NoDup_fst_map_to_list.
    rewrite (right_id ∅ (∪)), map_filter_alt. f_equal.
    apply list_filter_iff. intros kv. lia. }
  eexists. split; [|split; [|split; [|split]]].
  - unfold bind at 1. rewrite persist_cache_run by done.
    unfold init, modify. unfold bind at 1.
    cbn [self disk clock ticks].
    rewrite (initialize_cache_run now _ (self w));
      [reflexivity|reflexivity|cbn; by rewrite Hclock|cbn; intros; apply Hclock; lia].
  - apply Hentries.
  - reflexivity.
  - intros key e. cbn [self cache set_cache]. rewrite Hentries.
    apply map_lookup_filter_Some.
  - intros t. cbn [self request_timestamps set_cache set_request_timestamps].
    apply elem_of_in_window.
Qed.

Lemma snapshot_round_trip_witness :
  exists w',
    (_persist_cache ;;; init 5 true) mixed_world = (inl tt, w') /\
    cache (self w') =
      filter (fun kv => ~ expires_at kv.2 < 100000) (cache (self mixed_world)) /\
    request_timestamps (self w') =
      filter (fun t => 100000 - t < 60000) (request_timestamps (self mixed_world)) /\
    (forall key e,
       cache (self w') !! key = Some e <->
       cache (self mixed_world) !! key = Some e /\ ~ expires_at e < 100000) /\
    (forall t,
       t ∈ request_timestamps (self w') <->
       t ∈ request_timestamps (self mixed_world) /\ 100000 - t < 60000).
Proof.
  refine (snapshot_round_trip mixed_world 100000 5 _ _).
  - reflexivity.
  - intros i _. reflexivity.
Defined.

(** What the round trip yields on [mixed_world]. *)
Example snapshot_round_trip_mixed :
  let w' := snd ((_persist_cache ;;; init 5 true) mixed_world) in
  cache (self w') = {["new" := mkCacheEntry (JInt 2) 90000 200000]} /\
  request_timestamps (self w') = [50000].
Proof. split; vm_compute; reflexivity. Qed.

(** C4: [_get_wait_time_ms] returns 0 on an empty ledger; otherwise it
    returns [max(0, (oldest + 60000) - now)], where [oldest] is the least
    time stamp of the ledger and [now] the clock reading it takes.  After
    five fetches recorded at times 0..4 under a limit of 5, a sixth call at
    time 10 for a new key, not critical and not silent, fails with the
    rate-limit error; the wait time computed for it is 59990 ms (the
    message reports it in whole seconds). *)
Theorem get_wait_time_ms_spec :
  (forall P (w : world P),
     request_timestamps (self w) = [] -> _get_wait_time_ms w = (inl 0, w)) /\
  (forall P (w : world P) (oldest : Z),
     oldest ∈ request_timestamps (self w) ->
     (forall t, t ∈ request_timestamps (self w) -> oldest <= t) ->
     _get_wait_time_ms w =
       (inl (Z.max 0 ((oldest + 60000) - clock w (ticks w))), tick w)) /\
  (request_timestamps (self Scenario.after_five) = [0; 1; 2; 3; 4] /\
   minute_request_limit (self Scenario.after_five) = 5 /\
   cache (self Scenario.after_five) !! "key7" = None /\
   clock Scenario.after_five (ticks Scenario.after_five) = 10 /\
   fst (_get_wait_time_ms (purged Scenario.after_five)) = inl 59990 /\
   fst (Sync.with_cache "key7" (Scenario.upstream 7) default_options
          Scenario.after_five)
     = inr (Exception (rate_limit_message 5 5 59990)) /\
   rate_limit_message 5 5 59990 =
     "TaoStats API rate limit reached (5/5 per minute), need to wait 59 seconds").
Proof.
  split; [|split].
  - intros P w. apply get_wait_time_ms_empty.
  - intros P w oldest. apply get_wait_time_ms_oldest.
  - repeat split; vm_compute; reflexivity.
Qed.

Lemma get_wait_time_ms_spec_witness :
  _get_wait_time_ms (World (Service ∅ ∅ [] 5 true) None (fun _ => 7) 0 : world bool)
    = (inl 0, World (Service ∅ ∅ [] 5 true) None (fun _ => 7) 0) /\
  _get_wait_time_ms (World (Service ∅ ∅ [30; 20; 40] 5 true) None (fun _ => 50) 0 : world bool)
    = (inl 59970, World (Service ∅ ∅ [30; 20; 40] 5 true) None (fun _ => 50) 1).
Proof.
  destruct get_wait_time_ms_spec as (Hempty & Holdest & _). split.
  - apply Hempty. reflexivity.
  - refine (Holdest bool (World (Service ∅ ∅ [30; 20; 40] 5 true) None (fun _ => 50) 0) 20 _ _).
    + cbn. apply list_elem_of_further, list_elem_of_here.
    + cbn. intros t Ht. repeat (apply elem_of_cons in Ht as [->|Ht]; [lia|]).
      by apply elem_of_nil in Ht.
Defined.

(** C5 (what the code does): of two concurrent calls for one key with no
    entry, the first becomes the owner, calls [fetch_fn] once and is
    suspended; the second finds the pending coroutine and awaits it, which
    raises [RuntimeError] at once; when the fetch settles the owner returns
    the fetched value.  [fetch_fn] was called exactly once, but the two
    callers do not receive the same outcome. *)
Theorem coalescing_second_caller_fails :
  cache (self (Async.base Coalescing.fresh)) !! "k" = None /\
  pending_requests (self (Async.base Coalescing.fresh)) !! "k" = None /\
  force_refresh default_options = false /\
  fst Coalescing.first_call = inl (Async.Awaiting 0) /\
  pending_requests (self (Async.base (snd Coalescing.first_call))) !! "k" = Some 0%nat /\
  Async.fetch_calls (snd Coalescing.first_call) = 1%nat /\
  fst Coalescing.second_call
    = inr (PyExc "RuntimeError" "coroutine is being awaited already") /\
  snd Coalescing.second_call = snd Coalescing.first_call /\
  fst Coalescing.settled = inl (JInt 1) /\
  Async.fetch_calls (snd Coalescing.settled) = 1%nat /\
  pending_requests (self (Async.base (snd Coalescing.settled))) !! "k" = None /\
  cache (self (Async.base (snd Coalescing.settled))) !! "k"
    = Some (mkCacheEntry (JInt 1) 0 3600000).
Proof.
  repeat split; vm_compute; reflexivity.
Qed.

(** C6: [_has_reached_rate_limit] first drops every time stamp [t] with
    [now - t >= 60000] from the ledger, where [now] is the clock reading it
    takes, and then answers [True] exactly when the number of remaining
    time stamps is at least [minute_request_limit].  With a limit of 0 the
    answer is [True] whatever the ledger holds. *)
Theorem has_reached_rate_limit_spec {P} (w : world P) :
  let now := clock w (ticks w) in
  let ledger := request_timestamps (self w) in
  let remaining := filter (fun t => ~ now - t >= 60000) ledger in
  (exists b,
     _has_reached_rate_limit w =
       (inl b, World (set_request_timestamps remaining (self w))
                     (disk w) (clock w) (S (ticks w))) /\
     (b = true <-> Z.of_nat (length remaining) >= minute_request_limit (self w))) /\
  (forall c (p : gmap string P) e d ck n,
     fst (_has_reached_rate_limit (World (Service c p ledger 0 e) d ck n))
       = inl true).
Proof.
  intros now ledger remaining.
  assert (in_window now ledger = remaining) as Hrem.
  { unfold in_window, remaining. apply list_filter_iff. intros t.
    rewrite window_size_ms_eq. lia. }
  split.
  - eexists. rewrite has_reached_rate_limit_run. unfold purged. fold now ledger.
    rewrite Hrem. split; [reflexivity|].
    cbn [request_timestamps set_request_timestamps self].
    apply bool_decide_eq_true.
  - intros c p e d ck n. rewrite has_reached_rate_limit_run.
    cbn [fst self minute_request_limit]. f_equal.
    apply bool_decide_eq_true. lia.
Qed.

(** C7 (amended): when the key has no entry and the call reaches the
    fetch step, an exception raised by [fetch_fn] is raised by the call,
    unchanged, whatever [fail_silently] is: that option is consulted at the
    admission check only. *)
Theorem with_cache_upstream_error key fetch_fn options (w : Sync.world) error w_f :
  cache (self w) !! key = None ->
  pending_requests (self w) !! key = None \/ force_refresh options = true ->
  Z.of_nat (length (request_timestamps (self (purged w))))
    < minute_request_limit (self w) \/ critical options = true ->
  fetch_fn (fetching key (purged w)) = (inr error, w_f) ->
  Sync.with_cache key fetch_fn options w = (inr error, cleaned key w_f).
Proof.
  intros Hnone Hpend Hadm Hfetch.
  rewrite with_cache_no_live_entry; [|done|by rewrite Hnone].
  rewrite Hnone. cbn [looked_up].
  rewrite admission_granted by done.
  by rewrite (fetch_failure_run _ _ _ _ _ _ _ Hfetch).
Qed.

Lemma with_cache_upstream_error_witness :
  Sync.with_cache "k" failing_fetch silent_options empty_world =
    (inr upstream_down,
     World (Service ∅ ∅ [2000] 5 true) None (fun _ => 2000) 2).
Proof.
  refine (with_cache_upstream_error "k" failing_fetch silent_options empty_world
            upstream_down
            (fetching "k" (purged empty_world)) _ _ _ _).
  - reflexivity.
  - left. reflexivity.
  - left. vm_compute. reflexivity.
  - reflexivity.
Defined.

(** C7, as the specification has it, fails: with [fail_silently], no entry
    for the key, room in the ledger and a failing upstream, the call raises
    the upstream error instead of returning [None]. *)
Lemma with_cache_silent_upstream_error :
  fail_silently silent_options = true /\
  cache (self empty_world) !! "k" = None /\
  fst (_has_reached_rate_limit empty_world) = inl false /\
  fst (failing_fetch (fetching "k" (purged empty_world)))
    = inr upstream_down /\
  fst (Sync.with_cache "k" failing_fetch silent_options empty_world)
    = inr upstream_down /\
  fst (Sync.with_cache "k" failing_fetch silent_options empty_world) <> inl JNull.
Proof.
  repeat split; try reflexivity; discriminate.
Qed.

(** C8: [invalidate(key)] returns no value: the result of the call is
    [None] whether or not the key had an entry.  In either case the key has
    no entry afterwards, every other entry is unchanged, and so is the rest
    of the world. *)
Theorem invalidate_spec {P} (key : string) (w : world P) :
  exists after,
    invalidate key w = (inl JNull, with_entries after w) /\
    after !! key = None /\
    (forall k, k <> key -> after !! k = cache (self w) !! k).
Proof.
  exists (delete key (cache (self w))). split; [|split].
  - unfold invalidate. run.
    destruct (cache (self w) !! key) as [e|] eqn:He.
    + rewrite bool_decide_eq_true_2 by eauto.
      rewrite (del_cache_present _ _ _ He). reflexivity.
    + rewrite bool_decide_eq_false_2 by (intros [? [=]]).
      rewrite delete_id by done.
      unfold with_entries, set_cache. by destruct w as [[]].
  - apply lookup_delete_eq.
  - intros k Hk. by apply lookup_delete_ne.
Qed.

Lemma invalidate_spec_witness :
  exists after : gmap string CacheEntry,
    fst (invalidate "k" one_entry_world) = inl JNull /\
    after !! "k" = None /\
    after !! "j" = cache (self one_entry_world) !! "j".
Proof.
  destruct (invalidate_spec "k" one_entry_world) as (after & Hrun & Hgone & Hkept).
  exists after. split; [|split].
  - rewrite Hrun. reflexivity.
  - exact Hgone.
  - apply Hkept. discriminate.
Defined.

(** C8, as the specification has it, fails: the call on a key that has an
    entry does not return [True]. *)
Lemma invalidate_returns_none :
  is_Some (cache (self one_entry_world) !! "k") /\
  fst (invalidate "k" one_entry_world) = inl JNull /\
  fst (invalidate "k" one_entry_world) <> inl (JBool true).
Proof.
  split; [|split].
  - eexists. reflexivity.
  - reflexivity.
  - discriminate.
Qed.

(** C9: [invalidate_by_prefix(prefix)] removes exactly the keys that start
    with [prefix]: afterwards no such key has an entry, every other key has
    the entry it had, and nothing else in the world changes.  The value
    returned is the number of keys removed, which is the number of keys of
    the store that start with [prefix]. *)
Theorem invalidate_by_prefix_spec {P} (prefix : string) (w : world P) :
  exists after,
    let before := cache (self w) in
    let removed := size (filter (fun kv => startswith kv.1 prefix = true) before) in
    invalidate_by_prefix prefix w = (inl (Z.of_nat removed), with_entries after w) /\
    (forall rest, after !! (prefix +:+ rest) = None) /\
    (forall key, (forall rest, key <> prefix +:+ rest) -> after !! key = before !! key) /\
    (size after + removed = size before)%nat.
Proof.
  eexists. cbn zeta. split; [apply invalidate_by_prefix_run|]. split; [|split].
  - intros rest. apply map_lookup_filter_None_2. right. intros e _ Hn.
    apply Hn. cbn [fst]. apply startswith_spec. eauto.
  - intros key Hkey. rewrite map_lookup_filter.
    destruct (cache (self w) !! key) as [e|]; [cbn|done].
    apply option_guard_True. cbn [fst]. rewrite startswith_spec.
    intros [rest ->]. by apply (Hkey rest).
  - rewrite !size_filter_entries, <- (length_map_to_list (cache (self w))).
    rewrite <- (filter_app_complement
                  (fun kv : string * CacheEntry => startswith kv.1 prefix = true)
                  (map_to_list (cache (self w)))) at 3.
    rewrite length_app. lia.
Qed.

Lemma invalidate_by_prefix_spec_witness :
  exists after : gmap string CacheEntry,
    fst (invalidate_by_prefix "acct:"
           (World (Service (<["acct:1" := mkCacheEntry (JInt 1) 0 9]>
                             (<["user:1" := mkCacheEntry (JInt 2) 0 9]>
                               (<["acct:2" := mkCacheEntry (JInt 3) 0 9]> ∅)))
                           (∅ : gmap string bool) [] 5 true) None (fun _ => 0) 0))
      = inl 2 /\
    after !! "acct:1" = None /\ after !! "acct:2" = None /\
    after !! "user:1" = Some (mkCacheEntry (JInt 2) 0 9).
Proof.
  destruct (invalidate_by_prefix_spec "acct:"
              (World (Service (<["acct:1" := mkCacheEntry (JInt 1) 0 9]>
                                (<["user:1" := mkCacheEntry (JInt 2) 0 9]>
                                  (<["acct:2" := mkCacheEntry (JInt 3) 0 9]> ∅)))
                              (∅ : gmap string bool) [] 5 true) None (fun _ => 0) 0))
    as (after & Hrun & Hgone & Hkept & _).
  exists after. split; [|split; [|split]].
  - rewrite Hrun. reflexivity.
  - apply (Hgone "1").
  - apply (Hgone "2").
  - rewrite Hkept; [reflexivity|]. intros rest. discriminate.
Defined.

(** C10: a call without [force_refresh], for a key that has no pending
    request and has an entry that is not expired at the clock reading the
    call takes, returns the value of that entry.  The service object is left
    as it was (entries, pending table and ledger, the latter not even
    purged) and so is the snapshot file; the call consumed one clock
    reading.  This holds for the blocking and for the coroutine service,
    where in addition no coroutine is created and [fetch_fn] is not called. *)
Theorem with_cache_hit key options e :
  force_refresh options = false ->
  (forall fetch_fn (w : Sync.world),
     pending_requests (self w) !! key = None ->
     cache (self w) !! key = Some e ->
     ~ clock w (ticks w) > expires_at e ->
     Sync.with_cache key fetch_fn options w =
       (inl (data e), World (self w) (disk w) (clock w) (S (ticks w)))) /\
  (forall (aw : Async.aworld),
     let w := Async.base aw in
     pending_requests (self w) !! key = None ->
     cache (self w) !! key = Some e ->
     ~ clock w (ticks w) > expires_at e ->
     Async.with_cache key options aw =
       (inl (Async.Returned (data e)),
        Async.AWorld (World (self w) (disk w) (clock w) (S (ticks w)))
                     (Async.coroutines aw) (Async.fetch_calls aw))).
Proof.
  intros Hforce. split.
  - intros fetch_fn w Hpend He Hlive.
    unfold Sync.with_cache. rewrite try_except_reraise.
    unfold is_expired. run. rewrite Hpend.
    rewrite (bool_decide_eq_false_2 (is_Some None)) by (by intros [? [=]]).
    cbn [andb]. cbv beta iota. run. rewrite He, Hforce. cbn [negb].
    rewrite bool_decide_eq_false_2 by done. reflexivity.
  - intros aw w Hpend He Hlive. by apply async_hit.
Qed.

Lemma with_cache_hit_witness :
  Sync.with_cache "k" failing_fetch default_options live_world =
    (inl (JInt 7),
     World (Service {["k" := mkCacheEntry (JInt 7) 0 100]} ∅ [10; 20] 2 true)
           (Some JNull) (fun _ => 50) 1) /\
  Async.with_cache "k" default_options live_aworld =
    (inl (Async.Returned (JInt 7)),
     Async.AWorld
       (World (Service {["k" := mkCacheEntry (JInt 7) 0 100]} ∅ [10; 20] 2 true)
              (Some JNull) (fun _ => 50) 1) [] 0).
Proof.
  destruct (with_cache_hit "k" default_options (mkCacheEntry (JInt 7) 0 100) eq_refl)
    as [Hsync Hasync].
  split.
  - refine (Hsync failing_fetch live_world _ _ _).
    + reflexivity.
    + reflexivity.
    + vm_compute. discriminate.
  - refine (Hasync live_aworld _ _ _).
    + reflexivity.
    + reflexivity.
    + vm_compute. discriminate.
Defined.

(** * Further properties of the code *)

(** ** Running [with_cache] of the blocking service *)

Section SyncRuns.
Implicit Types (w : Sync.world) (key : string) (options : Options)
  (cached_entry : option CacheEntry) (fetch_fn : Sync.M json).

Lemma persist_cache_persisted {P} (w : world P) :
  _persist_cache w = (inl tt, persisted w).
Proof.
  unfold _persist_cache, persisted. run.
  by destruct (persistent_cache_enabled (self w)).
Qed.

Lemma sync_pending_run key fetch_fn options w :
  is_Some (pending_requests (self w) !! key) ->
  force_refresh options = false ->
  Sync.with_cache key fetch_fn options w = (inl JNull, w).
Proof.
  intros Hp Hf. unfold Sync.with_cache. rewrite try_except_reraise. run.
  by rewrite bool_decide_eq_true_2, Hf.
Qed.

Lemma sync_hit_run key fetch_fn options w e :
  force_refresh options = false ->
  pending_requests (self w) !! key = None ->
  cache (self w) !! key = Some e ->
  ~ clock w (ticks w) > expires_at e ->
  Sync.with_cache key fetch_fn options w = (inl (data e), tick w).
Proof.
  intros Hforce Hpend He Hlive.
  unfold Sync.with_cache. rewrite try_except_reraise.
  unfold is_expired. run. rewrite Hpend.
  rewrite (bool_decide_eq_false_2 (is_Some None)) by (by intros [? [=]]).
  cbn [andb]. cbv beta iota. run. rewrite He, Hforce. cbn [negb].
  rewrite bool_decide_eq_false_2 by done. reflexivity.
Qed.

Lemma fetch_success_run key fetch_fn options cached_entry w v w_f :
  fetch_fn (fetching key w) = (inl v, w_f) ->
  Sync.fetch key fetch_fn options cached_entry w =
    (inl v, cleaned key (stored key v (ttl options) w_f)).
Proof.
  intros Hfetch. unfold Sync.fetch, _record_request, CacheEntry_init. run.
  unfold fetching, recorded, registered in Hfetch.
  cbn [self disk clock ticks cache pending_requests request_timestamps
       minute_request_limit persistent_cache_enabled
       set_pending_requests set_request_timestamps] in Hfetch.
  rewrite Hfetch. rewrite persist_cache_persisted.
  rewrite clean_up_pending_run. reflexivity.
Qed.

End SyncRuns.

Section SyncCases.
Implicit Types (w : Sync.world) (key : string) (options : Options)
  (cached_entry : option CacheEntry) (fetch_fn : Sync.M json).

Lemma admission_cases key fetch_fn options cached_entry w :
  (critical options = false /\
   Sync.admission_then_fetch key fetch_fn options cached_entry w
     = rate_limited cached_entry options (purged w)) \/
  ((Z.of_nat (length (request_timestamps (self (purged w))))
      < minute_request_limit (self w) \/ critical options = true) /\
   Sync.admission_then_fetch key fetch_fn options cached_entry w
     = Sync.fetch key fetch_fn options cached_entry (purged w)).
Proof.
  destruct (critical options) eqn:Hc.
  - right. split; [by right|]. apply admission_granted. by right.
  - destruct (decide (Z.of_nat (length (request_timestamps (self (purged w))))
                      >= minute_request_limit (self w))) as [Hge|Hlt].
    + left. split; [done|]. by apply admission_denied.
    + right. split; [left; lia|]. apply admission_granted. left; lia.
Qed.

(** The four ways a call of the blocking [with_cache] can go. *)
Lemma with_cache_cases key fetch_fn options w :
  let cached_entry := cache (self w) !! key in
  let w1 := looked_up options cached_entry w in
  (is_Some (pending_requests (self w) !! key) /\ force_refresh options = false /\
   Sync.with_cache key fetch_fn options w = (inl JNull, w)) \/
  (exists e, cached_entry = Some e /\
     pending_requests (self w) !! key = None /\ force_refresh options = false /\
     Sync.with_cache key fetch_fn options w = (inl (data e), tick w)) \/
  (critical options = false /\
   Sync.with_cache key fetch_fn options w
     = rate_limited cached_entry options (purged w1)) \/
  ((Z.of_nat (length (request_timestamps (self (purged w1))))
      < minute_request_limit (self w) \/ critical options = true) /\
   Sync.with_cache key fetch_fn options w
     = Sync.fetch key fetch_fn options cached_entry (purged w1)).
Proof.
  cbv zeta.
  assert (pending_requests (self w) !! key = None \/ force_refresh options = true ->
          (forall e, cache (self w) !! key = Some e ->
             force_refresh options = true \/ clock w (ticks w) > expires_at e) ->
          (critical options = false /\
           Sync.with_cache key fetch_fn options w
             = rate_limited (cache (self w) !! key) options
                 (purged (looked_up options (cache (self w) !! key) w))) \/
          ((Z.of_nat (length (request_timestamps
                                (self (purged (looked_up options (cache (self w) !! key) w)))))
              < minute_request_limit (self w) \/ critical options = true) /\
           Sync.with_cache key fetch_fn options w
             = Sync.fetch key fetch_fn options (cache (self w) !! key)
                 (purged (looked_up options (cache (self w) !! key) w)))) as Hmiss.
  { intros Hpend Hdead. rewrite with_cache_no_live_entry by done.
    pose proof (admission_cases key fetch_fn options (cache (self w) !! key)
                  (looked_up options (cache (self w) !! key) w)) as Hadm.
    by rewrite looked_up_self in Hadm. }
  destruct (force_refresh options) eqn:Hf.
  { right; right. apply Hmiss; auto. }
  destruct (pending_requests (self w) !! key) as [b|] eqn:Hp.
  { left. split; [eauto|]. split; [done|].
    apply sync_pending_run; [rewrite Hp; eauto|done]. }
  destruct (cache (self w) !! key) as [e|] eqn:He.
  - destruct (decide (clock w (ticks w) > expires_at e)) as [Hexp|Hlive].
    + right; right. apply Hmiss; [by left|]. intros e' [= <-]. by right.
    + right; left. exists e. do 3 (split; [done|]). by apply sync_hit_run.
  - right; right. apply Hmiss; [by left|]. intros e' [=].
Qed.

End SyncCases.

(** ** The blocking [with_cache]: what a call does to the service *)



(** X2: a value fetched by one call is served from the cache by the next:
    after a successful fetch without [force_refresh], a second call for the
    same key whose clock reading is not after [t + ttl] returns the same
    value and consumes one clock reading only, whatever its [fetch_fn']. *)
Theorem with_cache_fetch_then_hit key fetch_fn fetch_fn' options
    (w w_f : Sync.world) v :
  let cached_entry := cache (self w) !! key in
  let w1 := looked_up options cached_entry w in
  let w2 := cleaned key (stored key v (ttl options) w_f) in
  force_refresh options = false ->
  pending_requests (self w) !! key = None ->
  (forall e, cached_entry = Some e -> clock w (ticks w) > expires_at e) ->
  Z.of_nat (length (request_timestamps (self (purged w1))))
    < minute_request_limit (self w) \/ critical options = true ->
  fetch_fn (fetching key (purged w1)) = (inl v, w_f) ->
  clock w2 (ticks w2) <= clock w_f (ticks w_f) + ttl options ->
  (Sync.with_cache key fetch_fn options ;;;
   Sync.with_cache key fetch_fn' options) w = (inl v, tick w2).
Proof.
  intros cached_entry w1 w2 Hforce Hpend Hdead Hadm Hfetch Hlive.
  unfold bind.
  rewrite with_cache_no_live_entry by auto. fold cached_entry w1.
  rewrite admission_granted by (unfold w1; by rewrite looked_up_self).
  rewrite (fetch_success_run _ _ _ _ _ _ _ Hfetch). fold w2.
  apply (sync_hit_run key fetch_fn' options w2
           (mkCacheEntry v (clock w_f (ticks w_f))
                         (clock w_f (ticks w_f) + ttl options))).
  - done.
  - apply lookup_delete_eq.
  - unfold w2, cleaned, stored, persisted.
    cbn [self persistent_cache_enabled set_cache].
    destruct (persistent_cache_enabled (self w_f));
      cbn [self cache set_pending_requests]; apply lookup_insert_eq.
  - cbn [expires_at]. lia.
Qed.

Lemma with_cache_fetch_then_hit_witness :
  (Sync.with_cache "k" (Scenario.upstream 1) default_options ;;;
   Sync.with_cache "k" failing_fetch default_options) empty_world
  = (inl (JInt 1),
     tick (cleaned "k" (stored "k" (JInt 1) 3600000
                          (fetching "k" (purged empty_world))))).
Proof.
  refine (with_cache_fetch_then_hit "k" (Scenario.upstream 1) failing_fetch
            default_options empty_world (fetching "k" (purged empty_world))
            (JInt 1) _ _ _ _ _ _).
  - reflexivity.
  - reflexivity.
  - intros e. vm_compute. discriminate.
  - left. vm_compute. reflexivity.
  - reflexivity.
  - vm_compute. discriminate.
Defined.

(** X3: the only exceptions a call raises are the rate-limit error, and
    that only without [fail_silently] and without [critical], and an
    exception raised by [fetch_fn] itself, and that only when there is no
    entry to fall back to or [fallback_to_cache] is off. *)
Theorem with_cache_exceptions key fetch_fn options (w w' : Sync.world) e :
  Sync.with_cache key fetch_fn options w = (inr e, w') ->
  (fail_silently options = false /\ critical options = false /\
   exists n limit wait_time, e = Exception (rate_limit_message n limit wait_time)) \/
  ((fallback_to_cache options = false \/ cache (self w) !! key = None) /\
   exists w_call w_f, fetch_fn w_call = (inr e, w_f)).
Proof.
  intros Hrun.
  destruct (with_cache_cases key fetch_fn options w)
    as [(_ & _ & H)|[(e0 & _ & _ & _ & H)|[(Hc & H)|(_ & H)]]];
    rewrite H in Hrun; try discriminate Hrun.
  - (* denied *)
    destruct (rate_limited_run (cache (self w) !! key) options
                (purged (looked_up options (cache (self w) !! key) w)))
      as (wait & w'' & _ & _ & _ & Hlim).
    rewrite Hlim in Hrun. left.
    assert (forall n limit, denied options n limit wait = inr e ->
              fail_silently options = false /\
              exists n limit wait_time, e = Exception (rate_limit_message n limit wait_time))
      as Hden.
    { intros n limit. unfold denied.
      destruct (fail_silently options); [discriminate|].
      intros [= <-]. eauto. }
    destruct (cache (self w) !! key) as [e0|];
      [destruct (fallback_to_cache options); [discriminate Hrun|]|];
      injection Hrun as Hrun _; apply Hden in Hrun as [? ?]; auto.
  - (* the fetch *)
    right.
    destruct (fetch_fn (fetching key
                (purged (looked_up options (cache (self w) !! key) w))))
      as [[v|e'] w_f] eqn:Hfetch.
    + rewrite (fetch_success_run _ _ _ _ _ _ _ Hfetch) in Hrun. discriminate Hrun.
    + rewrite (fetch_failure_run _ _ _ _ _ _ _ Hfetch) in Hrun.
      unfold fallen_back in Hrun.
      destruct (cache (self w) !! key) as [e0|];
        [destruct (fallback_to_cache options); [discriminate Hrun|]|];
        injection Hrun as <- _; eauto.
Qed.

Lemma with_cache_exceptions_witness :
  (fail_silently silent_options = false /\ critical silent_options = false /\
   exists n limit wait_time,
     upstream_down = Exception (rate_limit_message n limit wait_time)) \/
  ((fallback_to_cache silent_options = false \/ cache (self empty_world) !! "k" = None) /\
   exists w_call w_f, failing_fetch w_call = (inr upstream_down, w_f)).
Proof.
  refine (with_cache_exceptions "k" failing_fetch silent_options empty_world
            (cleaned "k" (fetching "k" (purged empty_world))) upstream_down _).
  reflexivity.
Defined.

(** X4: calls without [critical] keep the ledger within the limit.  If the
    ledger holds at most [minute_request_limit] time stamps before such a
    call and [fetch_fn] leaves the ledger and the limit alone, the same is
    true after the call, whatever its outcome. *)
Theorem with_cache_keeps_ledger_within_limit key fetch_fn options
    (w w' : Sync.world) r :
  critical options = false ->
  (forall w0,
     request_timestamps (self (snd (fetch_fn w0))) = request_timestamps (self w0) /\
     minute_request_limit (self (snd (fetch_fn w0))) = minute_request_limit (self w0)) ->
  Z.of_nat (length (request_timestamps (self w))) <= minute_request_limit (self w) ->
  Sync.with_cache key fetch_fn options w = (r, w') ->
  Z.of_nat (length (request_timestamps (self w'))) <= minute_request_limit (self w') /\
  minute_request_limit (self w') = minute_request_limit (self w).
Proof.
  intros Hcrit Hframe Hinv Hrun.
  assert (forall w0 : Sync.world,
            self w0 = self w ->
            Z.of_nat (length (request_timestamps (self (purged w0))))
              <= minute_request_limit (self w) /\
            minute_request_limit (self (purged w0)) = minute_request_limit (self w))
    as Hpurged.
  { intros w0 Hw0. unfold purged, in_window.
    cbn [self request_timestamps minute_request_limit set_request_timestamps].
    rewrite Hw0. split; [|done].
    pose proof (length_filter (fun ts => clock w0 (ticks w0) - ts < window_size_ms)
                  (request_timestamps (self w))). lia. }
  pose proof (looked_up_self options (cache (self w) !! key) w) as Hlook.
  destruct (with_cache_cases key fetch_fn options w)
    as [(_ & _ & H)|[(e0 & _ & _ & _ & H)|[(_ & H)|(Hadm & H)]]];
    rewrite H in Hrun.
  - by injection Hrun as _ <-.
  - by injection Hrun as _ <-.
  - destruct (rate_limited_run (cache (self w) !! key) options
                (purged (looked_up options (cache (self w) !! key) w)))
      as (wait & w'' & _ & Hs & _ & Hlim).
    rewrite Hlim in Hrun. injection Hrun as _ <-. rewrite Hs.
    destruct (Hpurged _ Hlook) as [? ->]. done.
  - destruct Hadm as [Hlt|Hc]; [|congruence].
    set (w2 := purged (looked_up options (cache (self w) !! key) w)) in *.
    destruct (Hpurged _ Hlook) as [_ Hlimit]. fold w2 in Hlimit.
    destruct (Hframe (fetching key w2)) as [Hts Hlim].
    assert (Z.of_nat (length (request_timestamps (self (fetching key w2))))
              <= minute_request_limit (self w) /\
            minute_request_limit (self (fetching key w2)) = minute_request_limit (self w))
      as [Hlen Hl].
    { unfold fetching, recorded, registered.
      cbn [self request_timestamps minute_request_limit set_request_timestamps
           set_pending_requests].
      rewrite length_app. cbn [length]. split; [lia|done]. }
    destruct (fetch_fn (fetching key w2)) as [[v|e'] w_f] eqn:Hfetch;
      cbn [snd] in Hts, Hlim.
    + rewrite (fetch_success_run _ _ _ _ _ _ _ Hfetch) in Hrun.
      injection Hrun as _ <-.
      unfold cleaned, stored, persisted.
      cbn [self persistent_cache_enabled set_cache].
      destruct (persistent_cache_enabled (self w_f));
        cbn [self request_timestamps minute_request_limit set_pending_requests
             set_cache];
        rewrite Hts, Hlim, Hl; done.
    + rewrite (fetch_failure_run _ _ _ _ _ _ _ Hfetch) in Hrun.
      injection Hrun as _ <-. unfold cleaned.
      cbn [self request_timestamps minute_request_limit set_pending_requests].
      rewrite Hts, Hlim, Hl. done.
Qed.

Lemma with_cache_keeps_ledger_within_limit_witness :
  Z.of_nat (length (request_timestamps
                      (self (snd (Sync.with_cache "k" failing_fetch silent_options
                                    empty_world)))))
    <= minute_request_limit
         (self (snd (Sync.with_cache "k" failing_fetch silent_options empty_world))) /\
  minute_request_limit
    (self (snd (Sync.with_cache "k" failing_fetch silent_options empty_world)))
    = minute_request_limit (self empty_world).
Proof.
  refine (with_cache_keeps_ledger_within_limit "k" failing_fetch silent_options
            empty_world _ (fst (Sync.with_cache "k" failing_fetch silent_options
                                  empty_world)) _ _ _ _).
  - reflexivity.
  - intros w0. split; reflexivity.
  - vm_compute. discriminate.
  - reflexivity.
Defined.

(** X5: a key that is not pending before a call is not pending after it,
    whatever the outcome and whatever [fetch_fn] does: the [finally] block
    removes the mark the call set. *)
Theorem with_cache_leaves_key_not_pending key fetch_fn options
    (w w' : Sync.world) r :
  pending_requests (self w) !! key = None ->
  Sync.with_cache key fetch_fn options w = (r, w') ->
  pending_requests (self w') !! key = None.
Proof.
  intros Hpend Hrun.
  destruct (with_cache_cases key fetch_fn options w)
    as [(Hp & _ & _)|[(e0 & _ & _ & _ & H)|[(_ & H)|(_ & H)]]].
  - rewrite Hpend in Hp. by destruct Hp.
  - rewrite H in Hrun. by injection Hrun as _ <-.
  - rewrite H in Hrun.
    destruct (rate_limited_run (cache (self w) !! key) options
                (purged (looked_up options (cache (self w) !! key) w)))
      as (wait & w'' & _ & Hs & _ & Hlim).
    rewrite Hlim in Hrun. injection Hrun as _ <-. rewrite Hs.
    unfold purged. cbn [self pending_requests set_request_timestamps].
    by rewrite looked_up_self.
  - rewrite H in Hrun.
    destruct (fetch_fn (fetching key
                (purged (looked_up options (cache (self w) !! key) w))))
      as [[v|e'] w_f] eqn:Hfetch.
    + rewrite (fetch_success_run _ _ _ _ _ _ _ Hfetch) in Hrun.
      injection Hrun as _ <-. apply lookup_delete_eq.
    + rewrite (fetch_failure_run _ _ _ _ _ _ _ Hfetch) in Hrun.
      injection Hrun as _ <-. apply lookup_delete_eq.
Qed.

Lemma with_cache_leaves_key_not_pending_witness :
  pending_requests
    (self (snd (Sync.with_cache "k" failing_fetch silent_options empty_world))) !! "k"
  = None.
Proof.
  refine (with_cache_leaves_key_not_pending "k" failing_fetch silent_options
            empty_world _ (fst (Sync.with_cache "k" failing_fetch silent_options
                                  empty_world)) _ _).
  - reflexivity.
  - reflexivity.
Defined.

(** ** The ledger over time *)

Section LedgerOverTime.
Context {P : Type}.
Implicit Types (w : world P) (l : list Z).

Lemma in_window_in_window t1 t2 l :
  t1 <= t2 -> in_window t2 (in_window t1 l) = in_window t2 l.
Proof.
  intros Hle. unfold in_window. rewrite list_filter_filter.
  apply list_filter_iff. intros t. lia.
Qed.

Lemma in_window_drops l m t :
  m ∈ l -> ~ t - m < window_size_ms ->
  (length (in_window t l) < length l)%nat.
Proof. intros Hm Hout. unfold in_window. by eapply length_filter_lt. Qed.

End LedgerOverTime.

(** X6: a later purge subsumes an earlier one.  Two runs of
    [_cleanup_expired_timestamps] whose clock readings do not go backwards
    leave the ledger that a single purge at the second reading would
    leave: the time stamps of the original ledger that are within the
    window at the second reading, in their original order. *)
Theorem cleanup_twice {P} (w : world P) :
  let t1 := clock w (ticks w) in
  let t2 := clock w (S (ticks w)) in
  t1 <= t2 ->
  (_cleanup_expired_timestamps ;;; _cleanup_expired_timestamps) w =
    (inl tt,
     World (set_request_timestamps
              (filter (fun t => t2 - t < 60000) (request_timestamps (self w))) (self w))
           (disk w) (clock w) (S (S (ticks w)))).
Proof.
  intros t1 t2 Hle. unfold bind.
  rewrite !cleanup_expired_timestamps_run. unfold purged.
  cbn [self disk clock ticks request_timestamps set_request_timestamps
       cache pending_requests minute_request_limit persistent_cache_enabled].
  rewrite in_window_in_window by done. reflexivity.
Qed.

Lemma cleanup_twice_witness :
  (_cleanup_expired_timestamps ;;; _cleanup_expired_timestamps) mixed_world =
    (inl tt,
     World (set_request_timestamps [50000] (self mixed_world))
           None (fun _ => 100000) 2).
Proof.
  refine (cleanup_twice mixed_world _). vm_compute. discriminate.
Defined.

(** X7: the wait time is the time until the oldest request leaves the
    window, exactly.  For a non-empty ledger read at [now], from
    [now + wait] on the purge drops at least the oldest time stamp, so a
    ledger that held no more than [minute_request_limit] time stamps is
    under the limit again; and at any time from [now] to just before
    [now + wait] the oldest time stamp is still counted. *)
Theorem wait_time_frees_a_slot {P} (w w1 : world P) (wait : Z) :
  let now := clock w (ticks w) in
  let ledger := request_timestamps (self w) in
  ledger <> [] ->
  _get_wait_time_ms w = (inl wait, w1) ->
  (forall w2 : world P,
     request_timestamps (self w2) = ledger ->
     Z.of_nat (length ledger) <= minute_request_limit (self w2) ->
     now + wait <= clock w2 (ticks w2) ->
     fst (_has_reached_rate_limit w2) = inl false) /\
  (forall t, now <= t < now + wait ->
     exists oldest,
       oldest ∈ in_window t ledger /\ forall x, x ∈ ledger -> oldest <= x).
Proof.
  intros now ledger Hne Hwait.
  destruct (sorted_head ledger Hne) as (m & r & _ & Hm & Hmin).
  rewrite (get_wait_time_ms_oldest w m Hm Hmin) in Hwait.
  injection Hwait as <- _. fold now. split.
  - intros w2 Hl Hlen Hlate. rewrite has_reached_rate_limit_run. cbn [fst].
    f_equal. apply bool_decide_eq_false_2.
    unfold purged. cbn [self request_timestamps set_request_timestamps].
    rewrite Hl.
    assert (length (in_window (clock w2 (ticks w2)) ledger) < length ledger)%nat.
    { apply (in_window_drops ledger m); [done|]. lia. }
    cbn [minute_request_limit]. lia.
  - intros t Ht. exists m. split; [|done].
    apply elem_of_in_window. split; [done|]. lia.
Qed.

Lemma wait_time_frees_a_slot_witness :
  (forall w2 : Sync.world,
     request_timestamps (self w2) = [1000] ->
     Z.of_nat (length [1000]) <= minute_request_limit (self w2) ->
     2000 + 59000 <= clock w2 (ticks w2) ->
     fst (_has_reached_rate_limit w2) = inl false) /\
  (forall t, 2000 <= t < 2000 + 59000 ->
     exists oldest,
       oldest ∈ in_window t [1000] /\ forall x, x ∈ [1000] -> oldest <= x).
Proof.
  refine (wait_time_frees_a_slot stale_full_world (tick stale_full_world) 59000 _ _).
  - discriminate.
  - reflexivity.
Defined.

(** ** [get_cache_stats] *)

(** X8: [get_cache_stats] purges the ledger at the clock reading it takes
    and changes nothing else of the service nor the snapshot file.  It
    reports the number of entries (expired ones included), the number [n]
    of requests within the window and [max(0, limit - n)] calls remaining.
    The report agrees with the admission check taken at the same reading:
    no call remains exactly when [_has_reached_rate_limit] answers [True].
    The reset time is "Available now" whenever a call remains, and also
    when the purged ledger is empty, even if the limit is 0. *)
Theorem get_cache_stats_spec {P} (w : world P) :
  let n := length (in_window (clock w (ticks w)) (request_timestamps (self w))) in
  let limit := minute_request_limit (self w) in
  let remaining := Z.max 0 (limit - Z.of_nat n) in
  exists reset w',
    get_cache_stats w =
      (inl (JObj [("size", JInt (Z.of_nat (size (cache (self w)))));
                  ("current_minute_requests", JInt (Z.of_nat n));
                  ("api_calls_remaining", JInt remaining);
                  ("window_reset_time", JStr reset)]), w') /\
    self w' = self (purged w) /\ disk w' = disk w /\
    (remaining = 0 <-> fst (_has_reached_rate_limit w) = inl true) /\
    (0 < remaining \/ n = 0%nat -> reset = "Available now").
Proof.
  intros n limit remaining.
  destruct (get_wait_time_ms_total (purged w)) as (wait & k & Hwait & _).
  assert (remaining = 0 <-> fst (_has_reached_rate_limit w) = inl true) as Hagree.
  { rewrite has_reached_rate_limit_run. cbn [fst]. fold n limit.
    unfold purged. cbn [self request_timestamps set_request_timestamps].
    fold n. split.
    - intros H. f_equal. apply bool_decide_eq_true_2. lia.
    - intros [= H]. apply bool_decide_eq_true in H. lia. }
  unfold get_cache_stats. unfold bind at 1.
  rewrite cleanup_expired_timestamps_run.
  unfold bind at 1, gets at 1. unfold bind at 1, gets at 1.
  change (request_timestamps (self (purged w)))
    with (in_window (clock w (ticks w)) (request_timestamps (self w))).
  change (minute_request_limit (self (purged w))) with limit.
  destruct (negb (bool_decide
                    (in_window (clock w (ticks w)) (request_timestamps (self w)) = []))
            && bool_decide
                 (Z.of_nat (length (in_window (clock w (ticks w))
                                      (request_timestamps (self w)))) >= limit))
    eqn:Hbranch.
  - exists (pretty (wait `div` 1000) +:+ " seconds"),
           (World (self (purged w)) (disk (purged w)) (clock (purged w))
                  (k + ticks (purged w))).
    unfold bind at 1. unfold bind at 1. rewrite Hwait. run.
    split; [reflexivity|]. split; [reflexivity|]. split; [reflexivity|].
    split; [exact Hagree|].
    apply andb_true_iff in Hbranch as [Hne Hge].
    apply negb_true_iff, bool_decide_eq_false in Hne.
    apply bool_decide_eq_true in Hge. fold n in Hge.
    intros [Hrem|Hn]; [lia|].
    exfalso. apply Hne. by apply length_zero_iff_nil.
  - exists "Available now", (purged w). run.
    split; [reflexivity|]. split; [reflexivity|]. split; [reflexivity|].
    split; [exact Hagree|done].
Qed.

Lemma get_cache_stats_spec_witness :
  exists reset w',
    get_cache_stats stale_full_world =
      (inl (JObj [("size", JInt 1);
                  ("current_minute_requests", JInt 1);
                  ("api_calls_remaining", JInt 0);
                  ("window_reset_time", JStr reset)]), w') /\
    self w' = self (purged stale_full_world) /\ disk w' = None /\
    (0 = 0 <-> fst (_has_reached_rate_limit stale_full_world) = inl true) /\
    (0 < 0 \/ 1%nat = 0%nat -> reset = "Available now").
Proof.
  exact (get_cache_stats_spec stale_full_world).
Defined.

(** ** Loading any snapshot file *)

Section Loading.
Context {P : Type}.
Implicit Types (w : world P) (c : gmap string CacheEntry).



End Loading.

Section LoadingAnyFile.
Context {P : Type}.
Implicit Types (w : world P) (c : gmap string CacheEntry).



End LoadingAnyFile.



Section BrokenEntry.
Context {P : Type}.
Implicit Types (w : world P) (l : list (string * CacheEntry)).

Lemma restore_entries_broken now l (key : json) d rest : forall w,
  dict_get "data" d = None ->
  (forall i, (ticks w <= i)%nat -> clock w i = now) ->
  restore_entries ((encode_entry <$> l) ++ JList [key; JObj d] :: rest) w =
    (inr (PyExc "KeyError" "data"),
     World (set_cache (foldl (keep_live now) (cache (self w)) l) (self w))
           (disk w) (clock w) (2 * length l + ticks w)).
Proof.
  intros w Hd. revert w.
  induction l as [|[k e] l IH]; intros w Hclock.
  - cbn [fmap list_fmap app restore_entries from_dict length foldl].
    rewrite Hd. unfold bind, raise, set_cache. by destruct w as [[]].
  - rewrite fmap_cons. cbn [app restore_entries encode_entry fst snd].
    unfold bind at 1. unfold bind at 1.
    rewrite from_dict_to_dict. unfold bind at 1, is_expired. run.
    unfold tick. cbn [self disk clock ticks].
    rewrite (Hclock (S (ticks w))) by lia.
    cbn [foldl]. unfold keep_live at 2. cbn [fst snd].
    destruct (bool_decide (now > expires_at e)); cbn [negb]; run;
      rewrite IH by (cbn; intros; apply Hclock; lia);
      cbn [self disk clock ticks cache set_cache length]; do 2 f_equal; lia.
Qed.

End BrokenEntry.

(** X10: one broken entry ends the load.  When the entry list of the
    snapshot holds well-formed entries, then a pair whose dict has no
    "data" field, then anything, [__init__] still ends without error and
    restores the ledger, but of the entries it restores only the live ones
    that came before the broken pair: whatever follows it is not restored,
    valid or not. *)
Theorem init_stops_at_broken_entry {P} (w : world P) (limit now written : Z)
    (ts : list Z) (before : list (string * CacheEntry))
    (key : json) (d : list (string * json)) (rest : list json) :
  NoDup before.*1 ->
  dict_get "data" d = None ->
  disk w = Some (JObj [("timestamp", JInt written);
                       ("requestTimestamps", JList (JInt <$> ts));
                       ("entries",
                        JList ((encode_entry <$> before) ++ JList [key; JObj d] :: rest))]) ->
  (forall i, (ticks w <= i)%nat -> clock w i = now) ->
  exists w',
    init limit true w = (inl tt, w') /\
    cache (self w') = list_to_map (filter (fun kv => ~ expires_at kv.2 < now) before) /\
    request_timestamps (self w') = filter (fun t => now - t < 60000) ts.
Proof.
  intros Hnd Hd Hdisk Hclock. unfold init, modify. unfold bind at 1.
  unfold _initialize_cache. run. cbn [negb]. cbv beta iota.
  rewrite Hdisk. run. cbv beta iota.
  change (dict_get "requestTimestamps" ?x) with (Some (JList (JInt <$> ts))).
  change (dict_get "entries" ?x)
    with (Some (JList ((encode_entry <$> before) ++ JList [key; JObj d] :: rest))).
  cbv beta iota. rewrite mapM_as_int. cbv beta iota. run.
  rewrite (Hclock (ticks w)) by lia.
  rewrite restore_entries_broken with (now := now);
    [|done|cbn; intros; apply Hclock; lia].
  eexists. split; [reflexivity|].
  cbn [self cache request_timestamps set_cache set_request_timestamps].
  split; [|reflexivity].
  rewrite foldl_keep_live by done. rewrite (right_id ∅ (∪)). f_equal.
  apply list_filter_iff. intros kv. lia.
Qed.

Lemma init_stops_at_broken_entry_witness :
  exists w' : Sync.world,
    init 5 true
      (World (Service ∅ ∅ [] 0 false)
         (Some (JObj [("timestamp", JInt 50);
                      ("requestTimestamps", JList (JInt <$> [150]));
                      ("entries",
                       JList ((encode_entry <$> [("a", mkCacheEntry (JInt 1) 0 300)])
                              ++ JList [JStr "b"; JObj []]
                              :: [encode_entry ("c", mkCacheEntry (JInt 3) 0 300)]))]))
         (fun _ => 200) 0) = (inl tt, w') /\
    cache (self w') =
      list_to_map (filter (fun kv => ~ expires_at kv.2 < 200)
                          [("a", mkCacheEntry (JInt 1) 0 300)]) /\
    request_timestamps (self w') = filter (fun t => 200 - t < 60000) [150].
Proof.
  refine (init_stops_at_broken_entry _ 5 200 50 [150]
            [("a", mkCacheEntry (JInt 1) 0 300)] (JStr "b") []
            [encode_entry ("c", mkCacheEntry (JInt 3) 0 300)] _ _ _ _).
  - apply NoDup_singleton.
  - reflexivity.
  - reflexivity.
  - intros i _. reflexivity.
Defined.

(** ** The coroutine service while a fetch is in flight *)

Section AsyncRuns.
Implicit Types (aw : Async.aworld) (key : string) (options : Options).

Lemma async_settled_success c key options cached_entry v aw :
  Async.coroutines aw !! c = Some (suspended key options cached_entry) ->
  Async.fetch_settled c (inl v) aw =
    (inl v,
     Async.AWorld (cleaned key (stored key v (ttl options) (Async.base aw)))
       (alter (fun co => Async.mkCoroutine (Async.co_key co) (Async.co_options co)
                           (Async.co_cached_entry co) Async.CORO_CLOSED)
              c (Async.coroutines aw))
       (Async.fetch_calls aw)).
Proof.
  intros Hc. unfold Async.fetch_settled. rewrite Hc. unfold suspended.
  unfold Async.clean_up_pending, Async.set_state, Async.lift, CacheEntry_init.
  run. cbn [Async.base Async.coroutines Async.fetch_calls].
  rewrite persist_cache_persisted.
  cbn [Async.base Async.coroutines Async.fetch_calls].
  unfold cleaned, stored.
  case_bool_decide as Hk; [reflexivity|].
  rewrite delete_id by (by apply eq_None_not_Some).
  do 2 f_equal. by destruct (persisted _) as [[]].
Qed.

End AsyncRuns.

(** X11: while the owner of a fetch is suspended, every other call for the
    same key without [force_refresh] awaits the owner's coroutine object
    and raises [RuntimeError]; it changes nothing, so [fetch_fn] is not
    called again and no request is recorded, however many callers come. *)
Theorem async_callers_during_fetch key options options' (aw : Async.aworld) :
  let w := Async.base aw in
  let cached_entry := cache (self w) !! key in
  let w1 := looked_up options cached_entry w in
  pending_requests (self w) !! key = None \/ force_refresh options = true ->
  (forall e, cached_entry = Some e ->
     force_refresh options = true \/ clock w (ticks w) > expires_at e) ->
  Z.of_nat (length (request_timestamps (self (purged w1))))
    < minute_request_limit (self w) \/ critical options = true ->
  force_refresh options' = false ->
  exists c aw1,
    Async.with_cache key options aw = (inl (Async.Awaiting c), aw1) /\
    Async.fetch_calls aw1 = S (Async.fetch_calls aw) /\
    Async.with_cache key options' aw1 =
      (inr (PyExc "RuntimeError" "coroutine is being awaited already"), aw1).
Proof.
  intros w cached_entry w1 Hpend Hdead Hadm Hforce'.
  exists (length (Async.coroutines aw)), (awaiting key options cached_entry aw).
  split; [by apply async_start|]. split; [reflexivity|].
  apply (async_join key options' (length (Async.coroutines aw))
           (suspended key options cached_entry)).
  - done.
  - unfold awaiting, recorded, registered.
    cbn [Async.base self pending_requests set_request_timestamps
         set_pending_requests].
    apply lookup_insert_eq.
  - unfold awaiting. cbn [Async.coroutines]. apply lookup_app_r_singleton.
  - reflexivity.
Qed.

Lemma async_callers_during_fetch_witness :
  exists c aw1,
    Async.with_cache "k" default_options Coalescing.fresh
      = (inl (Async.Awaiting c), aw1) /\
    Async.fetch_calls aw1 = 1%nat /\
    Async.with_cache "k" silent_options aw1 =
      (inr (PyExc "RuntimeError" "coroutine is being awaited already"), aw1).
Proof.
  refine (async_callers_during_fetch "k" default_options silent_options
            Coalescing.fresh _ _ _ _).
  - left. reflexivity.
  - intros e. vm_compute. discriminate.
  - left. vm_compute. reflexivity.
  - reflexivity.
Defined.

(** X12: when the fetch of the owner settles with a value [v], the owner
    returns [v]; the entry of the key holds [v], stamped with the clock
    reading [t] taken then and expiring at [t + ttl]; the key is no longer
    pending and the coroutine is closed.  This holds whatever other tasks
    did to the service while the owner was suspended. *)
Theorem async_fetch_success key options v (aw aw2 : Async.aworld) :
  let w := Async.base aw in
  let cached_entry := cache (self w) !! key in
  let w1 := looked_up options cached_entry w in
  let c := length (Async.coroutines aw) in
  let t := clock (Async.base aw2) (ticks (Async.base aw2)) in
  pending_requests (self w) !! key = None \/ force_refresh options = true ->
  (forall e, cached_entry = Some e ->
     force_refresh options = true \/ clock w (ticks w) > expires_at e) ->
  Z.of_nat (length (request_timestamps (self (purged w1))))
    < minute_request_limit (self w) \/ critical options = true ->
  Async.coroutines aw2 !! c = Some (suspended key options cached_entry) ->
  exists aw1 aw3,
    Async.with_cache key options aw = (inl (Async.Awaiting c), aw1) /\
    Async.coroutines aw1 !! c = Some (suspended key options cached_entry) /\
    Async.fetch_settled c (inl v) aw2 = (inl v, aw3) /\
    cache (self (Async.base aw3)) =
      <[key := mkCacheEntry v t (t + ttl options)]> (cache (self (Async.base aw2))) /\
    pending_requests (self (Async.base aw3)) !! key = None /\
    Async.co_state <$> Async.coroutines aw3 !! c = Some Async.CORO_CLOSED /\
    Async.fetch_calls aw3 = Async.fetch_calls aw2.
Proof.
  intros w cached_entry w1 c t Hpend Hdead Hadm Hc.
  eexists _, _. split; [by apply async_start|].
  split; [apply lookup_app_r_singleton|].
  rewrite (async_settled_success _ _ _ _ _ _ Hc).
  split; [reflexivity|].
  cbn [Async.base Async.coroutines Async.fetch_calls].
  split; [|split; [apply lookup_delete_eq|split; [|reflexivity]]].
  - unfold cleaned, stored, persisted.
    cbn [self persistent_cache_enabled set_cache].
    by destruct (persistent_cache_enabled (self (Async.base aw2))).
  - rewrite list_lookup_alter, Hc. by rewrite decide_True.
Qed.

Lemma async_fetch_success_witness :
  exists aw1 aw3,
    Async.with_cache "k" default_options Coalescing.fresh
      = (inl (Async.Awaiting 0%nat), aw1) /\
    Async.coroutines aw1 !! 0%nat = Some (suspended "k" default_options None) /\
    Async.fetch_settled 0 (inl (JInt 1)) (snd Coalescing.first_call)
      = (inl (JInt 1), aw3) /\
    cache (self (Async.base aw3)) =
      <["k" := mkCacheEntry (JInt 1) 0 (0 + 3600000)]>
        (cache (self (Async.base (snd Coalescing.first_call)))) /\
    pending_requests (self (Async.base aw3)) !! "k" = None /\
    Async.co_state <$> Async.coroutines aw3 !! 0%nat = Some Async.CORO_CLOSED /\
    Async.fetch_calls aw3 = Async.fetch_calls (snd Coalescing.first_call).
Proof.
  refine (async_fetch_success "k" default_options (JInt 1) Coalescing.fresh
            (snd Coalescing.first_call) _ _ _ _).
  - left. reflexivity.
  - intros e. vm_compute. discriminate.
  - left. vm_compute. reflexivity.
  - reflexivity.
Defined.

(** ** [make_api_request] *)

Section ServerRuns.
Implicit Types (w : Sync.world) (http : Sync.M json).

Lemma make_actual_request_run http w :
  exists v w', Server.make_actual_request http w = (inl v, w').
Proof.
  unfold Server.make_actual_request, try_except.
  destruct (http w) as [[v|e] w']; [by eauto|].
  destruct (Server.is_timeout e); unfold ret; eauto.
Qed.

Lemma make_actual_request_failure http w e w_f :
  http w = (inr e, w_f) ->
  Server.make_actual_request http w =
    (inl (if Server.is_timeout e then Server.timed_out else Server.empty_data), w_f).
Proof.
  intros H. unfold Server.make_actual_request, try_except. rewrite H.
  by destruct (Server.is_timeout e).
Qed.

(** With [fail_silently] and a [fetch_fn] that does not raise, the
    blocking [with_cache] does not raise. *)
Lemma with_cache_silent_total key fetch_fn options w :
  fail_silently options = true ->
  (forall w0, exists v w1, fetch_fn w0 = (inl v, w1)) ->
  exists v w', Sync.with_cache key fetch_fn options w = (inl v, w').
Proof.
  intros Hsilent Htotal.
  destruct (with_cache_cases key fetch_fn options w)
    as [(_ & _ & ->)|[(e0 & _ & _ & _ & ->)|[(_ & ->)|(_ & ->)]]]; eauto.
  - destruct (rate_limited_run (cache (self w) !! key) options
                (purged (looked_up options (cache (self w) !! key) w)))
      as (wait & w'' & _ & _ & _ & ->).
    unfold denied. rewrite Hsilent.
    destruct (cache (self w) !! key); [destruct (fallback_to_cache options)|]; eauto.
  - destruct (Htotal (fetching key
                (purged (looked_up options (cache (self w) !! key) w))))
      as (v & w1 & Hfetch).
    rewrite (fetch_success_run _ _ _ _ _ _ _ Hfetch). eauto.
Qed.

End ServerRuns.

(** X13: [make_api_request] never raises, whatever the HTTP exchange does:
    it returns a value.  Without an API key (unset, or the empty string) the
    value is the dict with an empty "data" list, and neither the cache, the
    ledger, the clock nor the network is touched. *)
Theorem make_api_request_returns (api_key : option string)
    (http : string -> string -> string -> Sync.M json)
    (endpoint params version : string) (use_dtao : bool) (w : Sync.world) :
  exists v w',
    Server.make_api_request api_key http endpoint params version use_dtao w
      = (inl v, w') /\
    (api_key = None \/ api_key = Some "" -> v = Server.empty_data /\ w' = w).
Proof.
  unfold Server.make_api_request.
  destruct api_key as [[|a key]|].
  - exists Server.empty_data, w. split; [reflexivity|done].
  - destruct (with_cache_silent_total
                (Server.url_for endpoint version use_dtao +:+ ":" +:+ params)
                (Server.make_actual_request
                   (http (Server.url_for endpoint version use_dtao) params
                         (String a key)))
                (Server.request_options endpoint) w)
      as (v & w' & Hrun).
    + reflexivity.
    + intros w0. apply make_actual_request_run.
    + exists v, w'. split; [exact Hrun|]. intros [[=]|[=]].
  - exists Server.empty_data, w. split; [reflexivity|done].
Qed.

Lemma make_api_request_returns_witness :
  exists v w',
    Server.make_api_request None (fun _ _ _ => failing_fetch)
      "price/latest" "{'asset': 'tao'}" "v1" false empty_world = (inl v, w') /\
    (@None string = None \/ @None string = Some "" ->
     v = Server.empty_data /\ w' = empty_world).
Proof.
  exact (make_api_request_returns None (fun _ _ _ => failing_fetch)
           "price/latest" "{'asset': 'tao'}" "v1" false empty_world).
Defined.

(** X14: a failed exchange is cached like a result.  When a request with
    an API key finds no entry and no pending mark for its cache key, is
    within the limit, and the HTTP exchange raises, [make_api_request]
    returns the error dict (with "Request timed out" for a timeout) and
    stores it as the entry of the cache key; a second request for the same
    URL and parameters whose clock reading is within the endpoint's time to
    live returns that dict again without any exchange. *)
Theorem make_api_request_caches_failure (key : string)
    (http http' : string -> string -> string -> Sync.M json)
    (endpoint params version : string) (use_dtao : bool)
    (w w_f : Sync.world) (e : exn) :
  let url := Server.url_for endpoint version use_dtao in
  let cache_key := url +:+ ":" +:+ params in
  let payload := if Server.is_timeout e then Server.timed_out else Server.empty_data in
  let w2 := cleaned cache_key (stored cache_key payload (Server.ttl_for endpoint) w_f) in
  key <> "" ->
  pending_requests (self w) !! cache_key = None ->
  cache (self w) !! cache_key = None ->
  Z.of_nat (length (request_timestamps (self (purged w))))
    < minute_request_limit (self w) ->
  http url params key (fetching cache_key (purged w)) = (inr e, w_f) ->
  clock w2 (ticks w2) <= clock w_f (ticks w_f) + Server.ttl_for endpoint ->
  Server.make_api_request (Some key) http endpoint params version use_dtao w
    = (inl payload, w2) /\
  cache (self w2) !! cache_key
    = Some (mkCacheEntry payload (clock w_f (ticks w_f))
                         (clock w_f (ticks w_f) + Server.ttl_for endpoint)) /\
  Server.make_api_request (Some key) http' endpoint params version use_dtao w2
    = (inl payload, tick w2).
Proof.
  intros url cache_key payload w2 Hkey Hpend Hnone Hadm Hhttp Hlive.
  assert (cache (self w2) !! cache_key
          = Some (mkCacheEntry payload (clock w_f (ticks w_f))
                               (clock w_f (ticks w_f) + Server.ttl_for endpoint)))
    as Hentry.
  { unfold w2, cleaned, stored, persisted.
    cbn [self persistent_cache_enabled set_cache].
    destruct (persistent_cache_enabled (self w_f));
      cbn [self cache set_pending_requests]; apply lookup_insert_eq. }
  unfold Server.make_api_request. destruct key as [|a key]; [done|].
  fold url cache_key. split; [|split; [exact Hentry|]].
  - rewrite with_cache_no_live_entry; [|by left|by rewrite Hnone].
    rewrite Hnone. cbn [looked_up].
    rewrite admission_granted by (by left).
    apply fetch_success_run. by apply make_actual_request_failure.
  - apply (sync_hit_run cache_key _ (Server.request_options endpoint) w2
             (mkCacheEntry payload (clock w_f (ticks w_f))
                           (clock w_f (ticks w_f) + Server.ttl_for endpoint)));
      [reflexivity|apply lookup_delete_eq|exact Hentry|].
    cbn [expires_at]. lia.
Qed.

Lemma make_api_request_caches_failure_witness :
  let payload := Server.timed_out in
  let cache_key := "https://api.taostats.io/api/price/latest/v1:{'asset': 'tao'}" in
  let timeout := fun _ _ _ => raise (PyExc "ReadTimeout" "timed out") : Sync.M json in
  let w2 := cleaned cache_key
              (stored cache_key payload 300000 (fetching cache_key (purged empty_world))) in
  Server.make_api_request (Some "secret") timeout
    "price/latest" "{'asset': 'tao'}" "v1" false empty_world = (inl payload, w2) /\
  cache (self w2) !! cache_key = Some (mkCacheEntry payload 2000 (2000 + 300000)) /\
  Server.make_api_request (Some "secret") (fun _ _ _ => failing_fetch)
    "price/latest" "{'asset': 'tao'}" "v1" false w2 = (inl payload, tick w2).
Proof.
  refine (make_api_request_caches_failure "secret"
            (fun _ _ _ => raise (PyExc "ReadTimeout" "timed out"))
            (fun _ _ _ => failing_fetch)
            "price/latest" "{'asset': 'tao'}" "v1" false empty_world
            (fetching "https://api.taostats.io/api/price/latest/v1:{'asset': 'tao'}"
                      (purged empty_world))
            (PyExc "ReadTimeout" "timed out") _ _ _ _ _ _).
  - discriminate.
  - reflexivity.
  - reflexivity.
  - vm_compute. reflexivity.
  - reflexivity.
  - vm_compute. discriminate.
Defined.

(** ** The time to live of an endpoint *)

Section Substrings.

Lemma contains_spec k s :
  Server.contains k s = true <-> exists a b, s = a +:+ k +:+ b.
Proof.
  split.
  - induction s as [|c s IH]; cbn [Server.contains];
      intros [Hp|Hc]%orb_true_iff.
    + apply (startswith_spec "" k) in Hp as [rest ->]. by exists "", rest.
    + discriminate.
    + apply (startswith_spec (String c s) k) in Hp as [rest ->]. by exists "", rest.
    + destruct (IH Hc) as (a & b & ->). by exists (String c a), b.
  - intros (a & b & ->). induction a as [|c a IH].
    + assert (Server.contains k (k +:+ b) = true) as H; [|exact H].
      destruct (k +:+ b) eqn:E; cbn [Server.contains]; apply orb_true_iff; left;
        rewrite <- E; apply (startswith_spec (k +:+ b) k); by exists b.
    + change (String c a +:+ k +:+ b) with (String c (a +:+ k +:+ b)).
      cbn [Server.contains]. apply orb_true_iff. by right.
Qed.

Lemma any_in_spec keys s :
  Server.any_in keys s = true <->
  exists k, k ∈ keys /\ exists a b, s = a +:+ k +:+ b.
Proof.
  unfold Server.any_in. rewrite existsb_exists. split.
  - intros (k & Hk & Hc). exists k. split; [by apply list_elem_of_In|].
    by apply contains_spec.
  - intros (k & Hk & Hc). exists k. split; [by apply list_elem_of_In|].
    by apply contains_spec.
Qed.

End Substrings.

(** X15: the time to live of a request depends on the endpoint only: 24
    hours when it contains "registration", "historical" or "history"
    anywhere; otherwise one hour when it contains "neuron", "subnet" or
    "stake"; otherwise five minutes.  The first rule wins: an endpoint
    that names a subnet and its history is kept for 24 hours. *)
Theorem ttl_for_spec (endpoint : string) :
  let has := fun k => exists a b, endpoint = a +:+ k +:+ b in
  let long := has "registration" \/ has "historical" \/ has "history" in
  let medium := has "neuron" \/ has "subnet" \/ has "stake" in
  (long -> Server.ttl_for endpoint = 86400000) /\
  (~ long -> medium -> Server.ttl_for endpoint = 3600000) /\
  (~ long -> ~ medium -> Server.ttl_for endpoint = 300000).
Proof.
  intros has long medium.
  assert (Server.any_in ["registration"; "historical"; "history"] endpoint = true
          <-> long) as Hlong.
  { rewrite any_in_spec. unfold long, has. split.
    - intros (k & Hk & Hc).
      repeat (apply elem_of_cons in Hk as [->|Hk]; [tauto|]).
      by apply elem_of_nil in Hk.
    - intros [H|[H|H]]; eexists; (split; [|exact H]);
        rewrite !elem_of_cons; tauto. }
  assert (Server.any_in ["neuron"; "subnet"; "stake"] endpoint = true
          <-> medium) as Hmedium.
  { rewrite any_in_spec. unfold medium, has. split.
    - intros (k & Hk & Hc).
      repeat (apply elem_of_cons in Hk as [->|Hk]; [tauto|]).
      by apply elem_of_nil in Hk.
    - intros [H|[H|H]]; eexists; (split; [|exact H]);
        rewrite !elem_of_cons; tauto. }
  unfold Server.ttl_for.
  destruct (Server.any_in ["registration"; "historical"; "history"] endpoint);
    destruct (Server.any_in ["neuron"; "subnet"; "stake"] endpoint);
    repeat split; intros; try reflexivity; exfalso;
    intuition congruence.
Qed.

Lemma ttl_for_spec_witness :
  Server.ttl_for "subnet/history" = 86400000 /\
  Server.ttl_for "subnet/latest" = 3600000 /\
  Server.ttl_for "price/latest" = 300000.
Proof.
  split; [|split].
  - apply (ttl_for_spec "subnet/history"). right; right. by exists "subnet/", "".
  - reflexivity.
  - reflexivity.
Defined.

(** ** [CacheEntry] and its dict *)

(** X16: [CacheEntry.from_dict(entry.to_dict())] rebuilds the entry: its
    value and both time stamps are the stored ones, not the time of the
    load, although the constructor reads the clock once.  A dict without
    "data" raises [KeyError] before the clock is read; one with "data" but
    without "timestamp" or "expiresAt" raises [KeyError] after it. *)
Theorem from_dict_round_trip {P} (w : world P) :
  (forall e, from_dict (to_dict e) w = (inl e, tick w)) /\
  (forall d, dict_get "data" d = None ->
     from_dict (JObj d) w = (inr (PyExc "KeyError" "data"), w)) /\
  (forall d v, dict_get "data" d = Some v -> dict_get "timestamp" d = None ->
     from_dict (JObj d) w = (inr (PyExc "KeyError" "timestamp"), tick w)) /\
  (forall d v t, dict_get "data" d = Some v -> dict_get "timestamp" d = Some t ->
     dict_get "expiresAt" d = None ->
     from_dict (JObj d) w = (inr (PyExc "KeyError" "expiresAt"), tick w)).
Proof.
  split; [|split; [|split]].
  - intros e. apply from_dict_to_dict.
  - intros d Hd. unfold from_dict. by rewrite Hd.
  - intros d v Hd Ht. unfold from_dict, CacheEntry_init. rewrite Hd. run.
    by rewrite Ht.
  - intros d v t Hd Ht Hx. unfold from_dict, CacheEntry_init. rewrite Hd. run.
    by rewrite Ht, Hx.
Qed.

Lemma from_dict_round_trip_witness :
  from_dict (to_dict (mkCacheEntry (JInt 7) 0 100)) empty_world
    = (inl (mkCacheEntry (JInt 7) 0 100), tick empty_world) /\
  from_dict (JObj []) empty_world = (inr (PyExc "KeyError" "data"), empty_world) /\
  from_dict (JObj [("data", JInt 7)]) empty_world
    = (inr (PyExc "KeyError" "timestamp"), tick empty_world) /\
  from_dict (JObj [("data", JInt 7); ("timestamp", JInt 0)]) empty_world
    = (inr (PyExc "KeyError" "expiresAt"), tick empty_world).
Proof.
  destruct (from_dict_round_trip empty_world) as (Hrt & Hdata & Hts & Hexp).
  split; [apply Hrt|]. split; [by apply Hdata|].
  split; [by apply (Hts _ (JInt 7))|]. by apply (Hexp _ (JInt 7) (JInt 0)).
Defined.

(** X17: the last live millisecond of an entry.  An entry created with
    [ttl] at clock reading [t0] reports expired at reading [t] exactly when
    [t > t0 + ttl]: it is still live at [t0 + ttl] itself, and with a
    negative [ttl] it is expired from the start. *)
Theorem entry_lifetime {P} (d : json) (ttl : Z) (w : world P) :
  let t0 := clock w (ticks w) in
  let t := clock w (S (ticks w)) in
  exists b,
    (entry <- CacheEntry_init d ttl ;; is_expired entry) w
      = (inl b, World (self w) (disk w) (clock w) (S (S (ticks w)))) /\
    (b = true <-> t > t0 + ttl) /\
    (t = t0 + ttl -> b = false) /\
    (ttl < 0 -> t0 <= t -> b = true).
Proof.
  intros t0 t. eexists. split; [reflexivity|].
  cbn [expires_at self disk clock ticks]. fold t0 t.
  rewrite bool_decide_eq_true, bool_decide_eq_false. lia.
Qed.

Lemma entry_lifetime_witness :
  exists b,
    (entry <- CacheEntry_init (JInt 1) (-1) ;; is_expired entry) empty_world
      = (inl b, World (self empty_world) (disk empty_world) (clock empty_world) 2) /\
    (b = true <-> 2000 > 2000 + -1) /\
    (2000 = 2000 + -1 -> b = false) /\
    (-1 < 0 -> 2000 <= 2000 -> b = true).
Proof.
  exact (entry_lifetime (JInt 1) (-1) empty_world).
Defined.
